(** * generate_token.py: JWT test-token generator of the GA Ticketing System

    A shallow embedding of [src/generate_token.py] together with the
    parts of the Python runtime and of PyJWT that the script relies on:
    text, [json.dumps], base64url, the compact JWS serialisation, the
    clock, the UUID generator, the console and the file system.

    Conventions of the model:
    - text is a [string], a character being a code point below 256;
    - a user profile is a dictionary from strings to strings, so that a
      field may be absent;
    - a [datetime] is a number of microseconds since the epoch; the
      range of [datetime] (years 1 to 9999) is not modelled;
    - the script runs in a [World]: the readings of the clock, the draws
      of the random source, the installed modules, the lines of the
      console and the files; reading the clock, drawing random bytes,
      printing and writing a file always succeed;
    - a statement either returns or raises, and exceptions propagate
      as in Python;
    - HMAC-SHA-256 is a parameter of the development, and PyJWT is
      modelled as its version 2.5 or later: [jwt.encode] returns a
      [str] and writes the header with its keys sorted (older versions
      write the same two members in the other order). *)

From Stdlib Require Import ZArith NArith String Ascii List Lia.
From Stdlib Require Import DecimalString DecimalN DecimalZ DecimalPos.
From stdpp Require Import gmap strings.
Import ListNotations.

Local Open Scope N_scope.

(** ** Text *)

Module Text.

Definition dquote : ascii := "034"%char.
Definition backslash : ascii := "092"%char.
Definition newline : ascii := "010"%char.

Definition chr (c : ascii) : string := String c EmptyString.

Fixpoint spaces (n : nat) : string :=
  match n with
  | O => EmptyString
  | S k => String " " (spaces k)
  end.

(** [sep.join(items)] *)
Fixpoint join (sep : string) (items : list string) : string :=
  match items with
  | [] => EmptyString
  | [x] => x
  | x :: rest => x +:+ sep +:+ join sep rest
  end.

(** Concatenation of a list of pieces. *)
Fixpoint cat (items : list string) : string :=
  match items with
  | [] => EmptyString
  | x :: rest => x +:+ cat rest
  end.

(** [s[n:]] *)
Fixpoint drop (n : nat) (s : string) : string :=
  match n, s with
  | O, _ => s
  | S k, EmptyString => EmptyString
  | S k, String _ r => drop k r
  end.

(** [s[:n]] *)
Fixpoint take (n : nat) (s : string) : string :=
  match n, s with
  | O, _ => EmptyString
  | S k, EmptyString => EmptyString
  | S k, String c r => String c (take k r)
  end.

(** [s[i:j]] for [i <= j] *)
Definition slice (i j : nat) (s : string) : string := take (j - i) (drop i s).

Definition is_lower (c : ascii) : bool :=
  (97 <=? N_of_ascii c) && (N_of_ascii c <=? 122).

(** [str.upper] on ASCII text: the letters a to z are mapped, the other
    characters are kept.  On letters outside ASCII Python maps more;
    the statements that read the result are about ASCII text. *)
Definition upper_char (c : ascii) : ascii :=
  if is_lower c then ascii_of_N (N_of_ascii c - 32) else c.

Fixpoint upper (s : string) : string :=
  match s with
  | EmptyString => EmptyString
  | String c r => String (upper_char c) (upper r)
  end.

Definition is_digit (c : ascii) : bool :=
  (48 <=? N_of_ascii c) && (N_of_ascii c <=? 57).

(** *** Hexadecimal *)

Definition hex_digit (d : N) : ascii :=
  match String.get (N.to_nat d) "0123456789abcdef" with
  | Some c => c
  | None => "0"%char
  end.

(** The [width] low hexadecimal digits of [n], most significant first. *)
Fixpoint hex_fixed (width : nat) (n : N) : string :=
  match width with
  | O => EmptyString
  | S w => hex_fixed w (n / 16) +:+ chr (hex_digit (n mod 16))
  end.

(** Number of hexadecimal digits of [n] (0 for 0). *)
Definition hex_len (n : N) : nat := N.to_nat ((N.size n + 3) / 4).

(** ['%0<width>x' % n]: lower-case hexadecimal, zero-padded to [width]. *)
Definition format_0x (width : nat) (n : N) : string :=
  hex_fixed (Nat.max width (hex_len n)) n.

Definition hex_val (c : ascii) : option N :=
  let n := N_of_ascii c in
  if (48 <=? n) && (n <=? 57) then Some (n - 48)
  else if (97 <=? n) && (n <=? 102) then Some (n - 87)
  else if (65 <=? n) && (n <=? 70) then Some (n - 55)
  else None.

(** Value of a string of hexadecimal digits, [acc] being the value read so far. *)
Fixpoint hex_value (acc : N) (s : string) : option N :=
  match s with
  | EmptyString => Some acc
  | String c r =>
      match hex_val c with
      | Some d => hex_value (16 * acc + d) r
      | None => None
      end
  end.

(** *** Decimal *)

(** [str(z)] for an integer. *)
Definition int_repr (z : Z) : string := NilZero.string_of_int (Z.to_int z).

(** Longest prefix of digits and the remainder. *)
Fixpoint span_digits (s : string) : string * string :=
  match s with
  | EmptyString => (EmptyString, EmptyString)
  | String c r =>
      if is_digit c
      then let '(d, rest) := span_digits r in (String c d, rest)
      else (EmptyString, s)
  end.

(** Reads a decimal integer, with an optional minus sign, at the head of [s]. *)
Definition read_int (s : string) : option (Z * string) :=
  let '(neg, body) :=
    match s with
    | String c r => if Ascii.eqb c "-" then (true, r) else (false, s)
    | EmptyString => (false, s)
    end in
  let '(digits, rest) := span_digits body in
  match digits with
  | EmptyString => None
  | _ =>
      match NilZero.uint_of_string digits with
      | Some u =>
          let n := Z.of_N (N.of_uint u) in
          Some (if neg then Z.opp n else n, rest)
      | None => None
      end
  end.

End Text.

(** ** Python values and exceptions *)

(** The values the script builds: [None], booleans, integers, strings,
    naive [datetime] objects (microseconds since the epoch), lists and
    insertion-ordered dictionaries with string keys. *)
#[warnings="-register-all"]
Inductive pyval : Type :=
| VNone
| VBool (b : bool)
| VInt (z : Z)
| VStr (s : string)
| VDatetime (us : Z)
| VList (items : list pyval)
| VDict (entries : list (string * pyval)).

Inductive exn : Type :=
| KeyError (key : string)
| TypeError (msg : string)
| NotImplementedError (msg : string)
| ModuleNotFoundError (name : string)
| SystemExit (code : Z).

(** [d[k] = v] on an insertion-ordered dictionary: an existing key keeps
    its position, a new key goes last. *)
Fixpoint dict_set {V : Type} (d : list (string * V)) (k : string) (v : V)
  : list (string * V) :=
  match d with
  | [] => [(k, v)]
  | (k', v') :: rest =>
      if String.eqb k' k then (k, v) :: rest else (k', v') :: dict_set rest k v
  end.

(** [d.get(k)] *)
Fixpoint dict_get {V : Type} (d : list (string * V)) (k : string) : option V :=
  match d with
  | [] => None
  | (k', v) :: rest => if String.eqb k' k then Some v else dict_get rest k
  end.

Definition dict_keys {V : Type} (d : list (string * V)) : list string := map fst d.

(** ** json.dumps *)

Module Json.
Import Text.

(** [json.encoder.encode_basestring_ascii], one character: printable
    ASCII is kept, the quote and the backslash are escaped, the usual
    control characters have short escapes, and everything else is
    written as a four-digit unicode escape. *)
Definition escape_char (c : ascii) : string :=
  let n := N_of_ascii c in
  if Ascii.eqb c backslash then String backslash (chr backslash)
  else if Ascii.eqb c dquote then String backslash (chr dquote)
  else if (32 <=? n) && (n <=? 126) then chr c
  else if n =? 8 then String backslash "b"
  else if n =? 12 then String backslash "f"
  else if n =? 10 then String backslash "n"
  else if n =? 13 then String backslash "r"
  else if n =? 9 then String backslash "t"
  else String backslash (String "u" (format_0x 4 n)).

Fixpoint escape (s : string) : string :=
  match s with
  | EmptyString => EmptyString
  | String c r => escape_char c +:+ escape r
  end.

Definition encode_str (s : string) : string :=
  String dquote (escape s +:+ chr dquote).

Fixpoint sequence {A : Type} (l : list (option A)) : option (list A) :=
  match l with
  | [] => Some []
  | None :: _ => None
  | Some x :: rest =>
      match sequence rest with
      | Some xs => Some (x :: xs)
      | None => None
      end
  end.

Section Encoder.

(** The attributes of a [JSONEncoder]. *)
Variable indent : option nat.
Variable item_separator : string.
Variable key_separator : string.

(** The line break and indentation written at nesting depth [level];
    empty when no indent is requested. *)
Definition newline_indent (level : nat) : string :=
  match indent with
  | Some n => String newline (spaces (n * level))
  | None => EmptyString
  end.

(** A container's text from the texts of its items. *)
Definition enclose (opening closing : string) (level : nat) (items : list string)
  : string :=
  match items with
  | [] => opening +:+ closing
  | _ =>
      opening +:+ newline_indent (S level)
      +:+ join (item_separator +:+ newline_indent (S level)) items
      +:+ newline_indent level +:+ closing
  end.

(** [None] stands for the [TypeError] raised on an object that is not
    JSON serialisable. *)
Fixpoint encode (level : nat) (v : pyval) : option string :=
  match v with
  | VNone => Some "null"
  | VBool true => Some "true"
  | VBool false => Some "false"
  | VInt z => Some (int_repr z)
  | VStr s => Some (encode_str s)
  | VDatetime _ => None
  | VList items =>
      match sequence (map (encode (S level)) items) with
      | Some texts => Some (enclose "[" "]" level texts)
      | None => None
      end
  | VDict entries =>
      match sequence
              (map (fun kv : string * pyval =>
                      let (k, x) := kv in
                      match encode (S level) x with
                      | Some t => Some (encode_str k +:+ key_separator +:+ t)
                      | None => None
                      end) entries) with
      | Some texts => Some (enclose "{" "}" level texts)
      | None => None
      end
  end.

End Encoder.

(** [json.dumps(obj, indent=..., separators=...)]; the default
    separators depend on whether an indent is given. *)
Definition dumps (indent : option nat) (separators : option (string * string))
  (obj : pyval) : exn + string :=
  let '(item_sep, key_sep) :=
    match separators, indent with
    | Some p, _ => p
    | None, None => (", ", ": ")
    | None, Some _ => (",", ": ")
    end in
  match encode indent item_sep key_sep 0 obj with
  | Some text => inr text
  | None => inl (TypeError "Object is not JSON serializable")
  end.

(** *** json.loads

    A reader for the documents [dumps] writes (and for other JSON texts
    over strings, integers, literals, arrays and objects).  An object is
    returned as its members in document order. *)

Definition is_ws (c : ascii) : bool :=
  let n := N_of_ascii c in
  (n =? 32) || (n =? 10) || (n =? 13) || (n =? 9).

Fixpoint skip_ws (s : string) : string :=
  match s with
  | EmptyString => EmptyString
  | String c r => if is_ws c then skip_ws r else s
  end.

(** [strip_prefix p s] removes [p] from the head of [s]. *)
Fixpoint strip_prefix (p s : string) : option string :=
  match p, s with
  | EmptyString, _ => Some s
  | String a p', String b s' => if Ascii.eqb a b then strip_prefix p' s' else None
  | String _ _, EmptyString => None
  end.

Definition cons_char (c : ascii) (r : option (string * string))
  : option (string * string) :=
  match r with
  | Some (body, rest) => Some (String c body, rest)
  | None => None
  end.

(** Reads the characters of a string literal after its opening quote, up
    to and including the closing quote. *)
Fixpoint read_chars (s : string) : option (string * string) :=
  match s with
  | EmptyString => None
  | String c r =>
      if Ascii.eqb c dquote then Some (EmptyString, r)
      else if Ascii.eqb c backslash then
        match r with
        | EmptyString => None
        | String e r1 =>
            if Ascii.eqb e dquote then cons_char dquote (read_chars r1)
            else if Ascii.eqb e backslash then cons_char backslash (read_chars r1)
            else if Ascii.eqb e "/" then cons_char "/" (read_chars r1)
            else if Ascii.eqb e "b" then cons_char "008" (read_chars r1)
            else if Ascii.eqb e "f" then cons_char "012" (read_chars r1)
            else if Ascii.eqb e "n" then cons_char "010" (read_chars r1)
            else if Ascii.eqb e "r" then cons_char "013" (read_chars r1)
            else if Ascii.eqb e "t" then cons_char "009" (read_chars r1)
            else if Ascii.eqb e "u" then
              match r1 with
              | String h1 (String h2 (String h3 (String h4 r2))) =>
                  match hex_value 0 (String h1 (String h2 (String h3 (chr h4)))) with
                  | Some n =>
                      if n <? 256 then cons_char (ascii_of_N n) (read_chars r2)
                      else None
                  | None => None
                  end
              | _ => None
              end
            else None
        end
      else if N_of_ascii c <? 32 then None
      else cons_char c (read_chars r)
  end.

Fixpoint read_value (fuel : nat) (s : string) {struct fuel}
  : option (pyval * string) :=
  match fuel with
  | O => None
  | S f =>
      match skip_ws s with
      | EmptyString => None
      | String c r =>
          if Ascii.eqb c dquote then
            match read_chars r with
            | Some (x, r') => Some (VStr x, r')
            | None => None
            end
          else if Ascii.eqb c "[" then
            match skip_ws r with
            | String c' r' =>
                if Ascii.eqb c' "]" then Some (VList [], r')
                else
                  match read_items f r with
                  | Some (l, r'') => Some (VList l, r'')
                  | None => None
                  end
            | EmptyString => None
            end
          else if Ascii.eqb c "{" then
            match skip_ws r with
            | String c' r' =>
                if Ascii.eqb c' "}" then Some (VDict [], r')
                else
                  match read_members f r with
                  | Some (l, r'') => Some (VDict l, r'')
                  | None => None
                  end
            | EmptyString => None
            end
          else if Ascii.eqb c "n" then
            match strip_prefix "ull" r with
            | Some r' => Some (VNone, r')
            | None => None
            end
          else if Ascii.eqb c "t" then
            match strip_prefix "rue" r with
            | Some r' => Some (VBool true, r')
            | None => None
            end
          else if Ascii.eqb c "f" then
            match strip_prefix "alse" r with
            | Some r' => Some (VBool false, r')
            | None => None
            end
          else
            match read_int (String c r) with
            | Some (z, r') => Some (VInt z, r')
            | None => None
            end
      end
  end
with read_items (fuel : nat) (s : string) {struct fuel}
  : option (list pyval * string) :=
  match fuel with
  | O => None
  | S f =>
      match read_value f s with
      | Some (v, r) =>
          match skip_ws r with
          | String c r' =>
              if Ascii.eqb c "," then
                match read_items f r' with
                | Some (vs, r'') => Some (v :: vs, r'')
                | None => None
                end
              else if Ascii.eqb c "]" then Some ([v], r')
              else None
          | EmptyString => None
          end
      | None => None
      end
  end
with read_members (fuel : nat) (s : string) {struct fuel}
  : option (list (string * pyval) * string) :=
  match fuel with
  | O => None
  | S f =>
      match skip_ws s with
      | String q r0 =>
          if Ascii.eqb q dquote then
            match read_chars r0 with
            | Some (k, r1) =>
                match skip_ws r1 with
                | String colon r2 =>
                    if Ascii.eqb colon ":" then
                      match read_value f r2 with
                      | Some (v, r3) =>
                          match skip_ws r3 with
                          | String c r4 =>
                              if Ascii.eqb c "," then
                                match read_members f r4 with
                                | Some (ms, r5) => Some ((k, v) :: ms, r5)
                                | None => None
                                end
                              else if Ascii.eqb c "}" then Some ([(k, v)], r4)
                              else None
                          | EmptyString => None
                          end
                      | None => None
                      end
                    else None
                | EmptyString => None
                end
            | None => None
            end
          else None
      | EmptyString => None
      end
  end.

(** [json.loads(s)]; [None] stands for a decoding error. *)
Definition loads (s : string) : option pyval :=
  match read_value (S (String.length s)) s with
  | Some (v, rest) =>
      match skip_ws rest with
      | EmptyString => Some v
      | _ => None
      end
  | None => None
  end.

End Json.

(** ** base64url without padding (PyJWT's [base64url_encode]) *)

Module Base64.
Import Text.

Definition alphabet : string :=
  "ABCDEFGHIJKLMNOPQRSTUVWXYZabcdefghijklmnopqrstuvwxyz0123456789-_".

Definition b64_char (n : N) : ascii :=
  match String.get (N.to_nat n) alphabet with
  | Some c => c
  | None => "A"%char
  end.

Definition b64_val (c : ascii) : option N :=
  let n := N_of_ascii c in
  if (65 <=? n) && (n <=? 90) then Some (n - 65)
  else if (97 <=? n) && (n <=? 122) then Some (n - 71)
  else if (48 <=? n) && (n <=? 57) then Some (n + 4)
  else if n =? 45 then Some 62
  else if n =? 95 then Some 63
  else None.

(** [base64.urlsafe_b64encode(s)] without its padding: three bytes give
    four characters; a last group of one or two bytes gives two or three. *)
Fixpoint urlsafe_encode (s : string) : string :=
  match s with
  | EmptyString => EmptyString
  | String a EmptyString =>
      let n := N_of_ascii a in
      String (b64_char (n / 4)) (chr (b64_char (n mod 4 * 16)))
  | String a (String b EmptyString) =>
      let n := N_of_ascii a * 256 + N_of_ascii b in
      String (b64_char (n / 1024))
        (String (b64_char (n / 16 mod 64)) (chr (b64_char (n mod 16 * 4))))
  | String a (String b (String c r)) =>
      let n := (N_of_ascii a * 256 + N_of_ascii b) * 256 + N_of_ascii c in
      String (b64_char (n / 262144))
        (String (b64_char (n / 4096 mod 64))
           (String (b64_char (n / 64 mod 64))
              (String (b64_char (n mod 64)) (urlsafe_encode r))))
  end.

(** The inverse reading; [None] on a character outside the alphabet or
    on a length that no encoding has. *)
Fixpoint urlsafe_decode (s : string) : option string :=
  match s with
  | EmptyString => Some EmptyString
  | String _ EmptyString => None
  | String a (String b EmptyString) =>
      match b64_val a, b64_val b with
      | Some x, Some y => Some (chr (ascii_of_N ((x * 64 + y) / 16)))
      | _, _ => None
      end
  | String a (String b (String c EmptyString)) =>
      match b64_val a, b64_val b, b64_val c with
      | Some x, Some y, Some z =>
          let n := (x * 64 + y) * 64 + z in
          Some (String (ascii_of_N (n / 1024)) (chr (ascii_of_N (n / 4 mod 256))))
      | _, _, _ => None
      end
  | String a (String b (String c (String d r))) =>
      match b64_val a, b64_val b, b64_val c, b64_val d, urlsafe_decode r with
      | Some x, Some y, Some z, Some u, Some rest =>
          let n := ((x * 64 + y) * 64 + z) * 64 + u in
          Some (String (ascii_of_N (n / 65536))
                  (String (ascii_of_N (n / 256 mod 256))
                     (String (ascii_of_N (n mod 256)) rest)))
      | _, _, _, _, _ => None
      end
  end.

End Base64.

(** ** uuid *)

Module Uuid.
Import Text.

(** [UUID(bytes=..., version=4).int] from the integer value of the 16
    random bytes: the variant bits are set to RFC 4122 and the version
    nibble to 4. *)
Definition uuid4_int (random : N) : N :=
  let i := random mod 2 ^ 128 in
  let i := N.ldiff i (N.shiftl 0xc000 48) in
  let i := N.lor i (N.shiftl 0x8000 48) in
  let i := N.ldiff i (N.shiftl 0xf000 64) in
  N.lor i (N.shiftl 4 76).

(** [str(uuid)]: the 32 hexadecimal digits in groups of 8-4-4-4-12. *)
Definition uuid_str (int : N) : string :=
  let hex := format_0x 32 int in
  slice 0 8 hex +:+ "-" +:+ slice 8 12 hex +:+ "-" +:+ slice 12 16 hex
  +:+ "-" +:+ slice 16 20 hex +:+ "-" +:+ drop 20 hex.

End Uuid.

(** ** PyJWT *)

Module Jwt.
Import Text.

(** [str.split(sep)] for a one-character separator. *)
Fixpoint split (sep : ascii) (s : string) : list string :=
  match s with
  | EmptyString => [EmptyString]
  | String c r =>
      if Ascii.eqb c sep then EmptyString :: split sep r
      else
        match split sep r with
        | x :: xs => String c x :: xs
        | [] => [chr c]
        end
  end.

(** [timegm(dt.utctimetuple())]: whole seconds since the epoch. *)
Definition numeric_date (us : Z) : Z := (us / 1000000)%Z.

(** A [datetime] under a time claim becomes its numeric date. *)
Definition convert_time_claim (payload : list (string * pyval)) (claim : string)
  : list (string * pyval) :=
  match dict_get payload claim with
  | Some (VDatetime us) => dict_set payload claim (VInt (numeric_date us))
  | _ => payload
  end.

Definition compact : option (string * string) := Some (",", ":").

(** What [jwt.encode] returns: a [str] in PyJWT 2, which is modelled
    here; [bytes] in older versions. *)
Inductive encoded : Type :=
| Str (s : string)
| Bytes (b : string).

(** [b.decode('utf-8')] on ASCII bytes. *)
Definition bytes_decode (b : string) : string := b.

Section Signing.

(** HMAC-SHA-256 of a message under a key. *)
Variable hmac_sha256 : string -> string -> string.

(** [api_jws.encode]: header and payload segments, then the signature of
    their dotted concatenation. *)
Definition jws_encode (json_payload key algorithm : string) : exn + encoded :=
  let header := VDict [("alg", VStr algorithm); ("typ", VStr "JWT")] in
  match Json.dumps None compact header with
  | inl e => inl e
  | inr json_header =>
      let segments :=
        [Base64.urlsafe_encode json_header; Base64.urlsafe_encode json_payload] in
      let signing_input := join "." segments in
      if String.eqb algorithm "HS256" then
        let signature := hmac_sha256 key signing_input in
        inr (Str (join "." (segments ++ [Base64.urlsafe_encode signature])))
      else inl (NotImplementedError "Algorithm not supported")
  end.

(** [jwt.encode(payload, key, algorithm=...)] *)
Definition encode (payload : pyval) (key algorithm : string) : exn + encoded :=
  match payload with
  | VDict entries =>
      let entries := fold_left convert_time_claim ["exp"; "iat"; "nbf"] entries in
      match dict_get entries "iss" with
      | Some (VStr _) | None =>
          match Json.dumps None compact (VDict entries) with
          | inl e => inl e
          | inr json_payload => jws_encode json_payload key algorithm
          end
      | Some _ => inl (TypeError "Issuer (iss) must be a string.")
      end
  | _ => inl (TypeError "Expecting a dict object, as JWT only supports JSON objects as payloads.")
  end.

(** The token's signature segment is the HMAC of its first two segments. *)
Definition signature_ok (key token : string) : bool :=
  match split "." token with
  | [h; p; s] =>
      match Base64.urlsafe_decode s with
      | Some sig => String.eqb sig (hmac_sha256 key (h +:+ "." +:+ p))
      | None => false
      end
  | _ => false
  end.

End Signing.

(** The claims of a token: its middle segment, base64url-decoded and
    read as JSON. *)
Definition decode_payload (token : string) : option pyval :=
  match split "." token with
  | [_; p; _] =>
      match Base64.urlsafe_decode p with
      | Some text => Json.loads text
      | None => None
      end
  | _ => None
  end.

(** A claim of a token. *)
Definition claim (token name : string) : option pyval :=
  match decode_payload token with
  | Some (VDict entries) => dict_get entries name
  | _ => None
  end.

End Jwt.

(** ** The runtime: clock, random source, modules, console, files *)

Record World : Type := mkWorld {
  (** successive readings of the system clock, in microseconds since the
      epoch (UTC), and how many were taken *)
  clock : nat -> Z;
  clock_reads : nat;
  (** successive 16-byte draws from the operating system's random
      source, as integers, and how many were taken *)
  urandom : nat -> N;
  urandom_draws : nat;
  (** third-party modules installed in the interpreter *)
  site_packages : gset string;
  (** lines written to the standard output and to the standard error *)
  stdout : list string;
  stderr : list string;
  (** the files, by path *)
  files : gmap string string
}.

(** A computation either raises or returns, and leaves a world. *)
Definition Py (A : Type) : Type := World -> (exn + A) * World.

Definition ret {A : Type} (x : A) : Py A := fun w => (inr x, w).

Definition raise {A : Type} (e : exn) : Py A := fun w => (inl e, w).

Definition bind {A B : Type} (m : Py A) (k : A -> Py B) : Py B :=
  fun w =>
    match m w with
    | (inr x, w') => k x w'
    | (inl e, w') => (inl e, w')
    end.

Declare Scope py_scope.
Delimit Scope py_scope with py.
Bind Scope py_scope with Py.
Notation "x <- m ;; k" := (bind m (fun x => k))
  (at level 100, m at next level, right associativity) : py_scope.
Notation "m ;; k" := (bind m (fun _ => k))
  (at level 100, right associativity) : py_scope.

(** Lifts the result of a pure library call. *)
Definition lift {A : Type} (r : exn + A) : Py A :=
  match r with
  | inr x => ret x
  | inl e => raise e
  end.

(** [try: body / except <handled>: handler] *)
Definition try_except {A : Type} (body : Py A) (handled : exn -> bool)
  (handler : Py A) : Py A :=
  fun w =>
    match body w with
    | (inl e, w') => if handled e then handler w' else (inl e, w')
    | r => r
    end.

(** [datetime.utcnow()] *)
Definition utcnow : Py Z :=
  fun w =>
    (inr (clock w (clock_reads w)),
     mkWorld (clock w) (S (clock_reads w)) (urandom w) (urandom_draws w)
       (site_packages w) (stdout w) (stderr w) (files w)).

(** [timedelta(hours=h)] in microseconds. *)
Definition timedelta_hours (h : Z) : Z := (h * 3600 * 1000000)%Z.

(** [uuid.uuid4()] *)
Definition uuid4 : Py N :=
  fun w =>
    (inr (Uuid.uuid4_int (urandom w (urandom_draws w))),
     mkWorld (clock w) (clock_reads w) (urandom w) (S (urandom_draws w))
       (site_packages w) (stdout w) (stderr w) (files w)).

(** [print(line)] *)
Definition print (line : string) : Py unit :=
  fun w =>
    (inr tt,
     mkWorld (clock w) (clock_reads w) (urandom w) (urandom_draws w)
       (site_packages w) (stdout w ++ [line]) (stderr w) (files w)).

(** [with open(path, "w") as f: f.write(text)]: the file is created or
    truncated, and holds [text] afterwards. *)
Definition write_file (path text : string) : Py unit :=
  fun w =>
    (inr tt,
     mkWorld (clock w) (clock_reads w) (urandom w) (urandom_draws w)
       (site_packages w) (stdout w) (stderr w) (<[path := text]> (files w))).

(** [with open(path, "w") as f: json.dump(obj, f, indent=indent)] *)
Definition json_dump_file (obj : pyval) (path : string) (indent : option nat)
  : Py unit :=
  (text <- lift (Json.dumps indent None obj) ;; write_file path text)%py.

(** The modules of the standard library the script imports. *)
Definition stdlib_modules : list string := ["json"; "datetime"; "uuid"].

(** [import name] *)
Definition import_module (name : string) : Py unit :=
  fun w =>
    if bool_decide (name ∈ stdlib_modules) || bool_decide (name ∈ site_packages w)
    then (inr tt, w)
    else (inl (ModuleNotFoundError name), w).

(** [ModuleNotFoundError] is a subclass of [ImportError]. *)
Definition is_ImportError (e : exn) : bool :=
  match e with
  | ModuleNotFoundError _ => true
  | _ => false
  end.

(** [d[key]] on a dictionary of strings. *)
Definition getitem (d : gmap string string) (key : string) : Py string :=
  match d !! key with
  | Some v => ret v
  | None => raise (KeyError key)
  end.

Definition dict_getitem (d : list (string * string)) (key : string) : Py string :=
  match dict_get d key with
  | Some v => ret v
  | None => raise (KeyError key)
  end.

(** The last line of the traceback of an uncaught exception. *)
Definition traceback_line (e : exn) : string :=
  match e with
  | KeyError k => "KeyError: '" +:+ k +:+ "'"
  | TypeError m => "TypeError: " +:+ m
  | NotImplementedError m => "NotImplementedError: " +:+ m
  | ModuleNotFoundError n => "ModuleNotFoundError: No module named '" +:+ n +:+ "'"
  | SystemExit _ => EmptyString
  end.

(** Running a module as a script: the exit status and the final world.
    An uncaught exception is reported on the standard error and gives
    status 1; [SystemExit] gives its code. *)
Definition run_script (body : Py unit) (w : World) : Z * World :=
  match body w with
  | (inr _, w') => (0%Z, w')
  | (inl (SystemExit code), w') => (code, w')
  | (inl e, w') =>
      (1%Z,
       mkWorld (clock w') (clock_reads w') (urandom w') (urandom_draws w')
         (site_packages w') (stdout w') (stderr w' ++ [traceback_line e]) (files w'))
  end.

(** ** generate_token.py *)

Module Script.
Import Text.

Local Open Scope py_scope.

Definition JWT_SECRET : string := "your-super-secret-jwt-key-change-this-in-production".
Definition JWT_ISSUER : string := "ga-ticketing-system".
Definition ALGORITHM : string := "HS256".

Section Program.

Variable hmac_sha256 : string -> string -> string.

(** [generate_token(user_info)].  The values of the payload are
    evaluated in the order of the dictionary display. *)
Definition generate_token (user_info : gmap string string) : Py string :=
  now <- utcnow ;;
  let expires_at := (now + timedelta_hours 24)%Z in
  user_id <- getitem user_info "id" ;;
  employee_id <- getitem user_info "employee_id" ;;
  name <- getitem user_info "name" ;;
  email <- getitem user_info "email" ;;
  role <- getitem user_info "role" ;;
  department <- getitem user_info "department" ;;
  jti <- uuid4 ;;
  sub <- getitem user_info "id" ;;
  let payload :=
    VDict [("user_id", VStr user_id);
           ("employee_id", VStr employee_id);
           ("name", VStr name);
           ("email", VStr email);
           ("role", VStr role);
           ("department", VStr department);
           ("jti", VStr (Uuid.uuid_str jti));
           ("iss", VStr JWT_ISSUER);
           ("sub", VStr sub);
           ("aud", VList [VStr "ga-ticketing-client"]);
           ("exp", VDatetime expires_at);
           ("nbf", VDatetime now);
           ("iat", VDatetime now)] in
  token <- lift (Jwt.encode hmac_sha256 payload JWT_SECRET ALGORITHM) ;;
  let token :=
    match token with
    | Jwt.Bytes b => Jwt.bytes_decode b
    | Jwt.Str s => s
    end in
  ret token.

(** The sample users of [main], in declaration order. *)
Definition users : list (string * gmap string string) :=
  [("requester",
    list_to_map [("id", "req-001"); ("employee_id", "EMP001");
                 ("name", "John Requester");
                 ("email", "john.requester@company.com");
                 ("role", "requester"); ("department", "IT")]);
   ("approver",
    list_to_map [("id", "app-001"); ("employee_id", "EMP002");
                 ("name", "Jane Approver");
                 ("email", "jane.approver@company.com");
                 ("role", "approver"); ("department", "Finance")]);
   ("admin",
    list_to_map [("id", "adm-001"); ("employee_id", "EMP003");
                 ("name", "Admin User");
                 ("email", "admin@company.com");
                 ("role", "admin"); ("department", "GA")])].

(** One iteration of the loop of [main]. *)
Definition loop_body (tokens : list (string * string))
  (item : string * gmap string string) : Py (list (string * string)) :=
  let (role, user_info) := item in
  token <- generate_token user_info ;;
  let tokens := dict_set tokens role token in
  print (upper role +:+ " USER:") ;;
  name <- getitem user_info "name" ;;
  print ("  Name: " +:+ name) ;;
  email <- getitem user_info "email" ;;
  print ("  Email: " +:+ email) ;;
  role' <- getitem user_info "role" ;;
  print ("  Role: " +:+ role') ;;
  print ("  Token: " +:+ token) ;;
  print EmptyString ;;
  ret tokens.

(** [for role, user_info in users.items(): ...], from the tokens so far. *)
Fixpoint loop (items : list (string * gmap string string))
  (tokens : list (string * string)) : Py (list (string * string)) :=
  match items with
  | [] => ret tokens
  | item :: rest => tokens' <- loop_body tokens item ;; loop rest tokens'
  end.

Definition tokens_value (tokens : list (string * string)) : pyval :=
  VDict (map (fun kv : string * string => (fst kv, VStr (snd kv))) tokens).

Definition export_line (name token : string) : string :=
  "export " +:+ name +:+ "=" +:+ chr dquote +:+ token +:+ chr dquote.

(** The body of [main], with its table of users as a parameter; it
    returns the tokens for the statements below to speak of them. *)
Definition main_with (table : list (string * gmap string string))
  : Py (list (string * string)) :=
  print "GA Ticketing System - JWT Token Generator" ;;
  print (cat (repeat "=" 50)) ;;
  print EmptyString ;;
  tokens <- loop table [] ;;
  json_dump_file (tokens_value tokens) "test_tokens.json" (Some 2%nat) ;;
  print "Tokens saved to: test_tokens.json" ;;
  print EmptyString ;;
  print "Usage examples:" ;;
  requester <- dict_getitem tokens "requester" ;;
  print (export_line "REQUESTER_TOKEN" requester) ;;
  approver <- dict_getitem tokens "approver" ;;
  print (export_line "APPROVER_TOKEN" approver) ;;
  admin <- dict_getitem tokens "admin" ;;
  print (export_line "ADMIN_TOKEN" admin) ;;
  ret tokens.

(** [main()]: the body at the table [users]; returns [None]. *)
Definition main : Py unit := main_with users ;; ret tt.

(** The module run as a script: the imports at its top, then the guarded
    block at its end. *)
Definition script : Py unit :=
  import_module "jwt" ;;
  import_module "json" ;;
  import_module "datetime" ;;
  import_module "uuid" ;;
  try_except (import_module "jwt") is_ImportError
    (print "Error: PyJWT is not installed." ;;
     print "Install it with: pip install PyJWT" ;;
     raise (SystemExit 1)) ;;
  main.

End Program.

End Script.

(** * Properties

    The rest of the file states and proves what the script does.  It
    starts with the vocabulary of the statements. *)

Import Text Json Base64 Uuid Jwt Script.

(** ** Vocabulary: text *)

(** [c] does not occur in [s]. *)
Fixpoint no_char (c : ascii) (s : string) : bool :=
  match s with
  | EmptyString => true
  | String x r => negb (Ascii.eqb x c) && no_char c r
  end.

(** [s] without the occurrences of [c]. *)
Fixpoint remove_char (c : ascii) (s : string) : string :=
  match s with
  | EmptyString => EmptyString
  | String x r =>
      if Ascii.eqb x c then remove_char c r else String x (remove_char c r)
  end.

(** The integer a UUID string stands for. *)
Definition uuid_int_of_str (s : string) : option N :=
  hex_value 0 (remove_char "-" s).

Definition starts_with_digit (s : string) : bool :=
  match s with
  | String c _ => is_digit c
  | EmptyString => false
  end.

(** [s] is made of blanks. *)
Fixpoint all_ws (s : string) : bool :=
  match s with
  | EmptyString => true
  | String c r => is_ws c && all_ws r
  end.

(** [s] starts where a JSON value may start. *)
Definition opens_value (s : string) : bool :=
  match s with
  | String c _ =>
      negb (is_ws c) && negb (Ascii.eqb c "]") && negb (Ascii.eqb c "}")
  | EmptyString => false
  end.

Definition is_int_head (c : ascii) : bool := is_digit c || Ascii.eqb c "-".

(** The separators [dumps] is used with: a comma or a colon, then blanks. *)
Definition comma_sep (blanks : string) : string := String "," blanks.
Definition colon_sep (blanks : string) : string := String ":" blanks.

(** The fuel a value needs to be read back. *)
Fixpoint size (v : pyval) : nat :=
  match v with
  | VList items => S (list_sum (map (fun x => S (size x)) items))
  | VDict entries =>
      S (list_sum (map (fun kv : string * pyval => let (_, x) := kv in S (size x))
                     entries))
  | _ => 1
  end.

(** Whatever text [v] is written as, at any depth and before any
    remainder that does not extend a number, [v] is read back from it. *)
Definition roundtrips (indent : option nat) (item_ws key_ws : string) (v : pyval)
  : Prop :=
  forall level text rest fuel,
    Json.encode indent (comma_sep item_ws) (colon_sep key_ws) level v = Some text ->
    starts_with_digit rest = false ->
    (size v <= fuel)%nat ->
    read_value fuel (text +:+ rest) = Some (v, rest).

(** Every character of [s] satisfies [p]. *)
Fixpoint all_chars (p : ascii -> bool) (s : string) : bool :=
  match s with
  | EmptyString => true
  | String c r => p c && all_chars p r
  end.

(** A digit or one of the letters a to f. *)
Definition is_lower_hex (c : ascii) : bool :=
  is_digit c || ((97 <=? N_of_ascii c) && (N_of_ascii c <=? 102)).

(** The canonical text of a version-4 UUID of the RFC 4122 variant: 36
    characters, lower-case hexadecimal digits in groups of 8, 4, 4, 4
    and 12 separated by hyphens, the third group starting with 4 and
    the fourth with 8, 9, a or b. *)
Definition is_uuid4_text (s : string) : bool :=
  (String.length s =? 36)%nat
  && all_chars is_lower_hex (slice 0 8 s)
  && String.eqb (slice 8 9 s) "-"
  && all_chars is_lower_hex (slice 9 13 s)
  && String.eqb (slice 13 15 s) "-4"
  && all_chars is_lower_hex (slice 15 18 s)
  && String.eqb (slice 18 19 s) "-"
  && existsb (String.eqb (slice 19 20 s)) ["8"; "9"; "a"; "b"]
  && all_chars is_lower_hex (slice 20 23 s)
  && String.eqb (slice 23 24 s) "-"
  && all_chars is_lower_hex (drop 24 s).

(** A character of ASCII. *)
Definition is_ascii (c : ascii) : bool := N_of_ascii c <? 128.

(** [t] is [s] with its letters a to z in upper case: the two have the
    same length, and at each position a letter a to z of [s] is
    replaced by the character 32 code points below it, any other
    character being kept. *)
Definition is_upper_of (s t : string) : Prop :=
  String.length t = String.length s
  /\ forall (i : nat) (c : ascii),
       String.get i s = Some c ->
       String.get i t
       = Some (if (97 <=? N_of_ascii c) && (N_of_ascii c <=? 122)
               then ascii_of_N (N_of_ascii c - 32)
               else c).

(** An ASCII letter, a digit, a hyphen, an underscore or a dot. *)
Definition is_token_char (c : ascii) : bool :=
  let n := N_of_ascii c in
  ((65 <=? n) && (n <=? 90)) || is_lower c || is_digit c
  || Ascii.eqb c "-" || Ascii.eqb c "_" || Ascii.eqb c ".".

(** ** Vocabulary: tokens *)

(** The six strings [generate_token] reads from a profile. *)
Record Fields : Type := mkFields {
  f_id : string;
  f_employee_id : string;
  f_name : string;
  f_email : string;
  f_role : string;
  f_department : string
}.

Definition field_names : list string :=
  ["id"; "employee_id"; "name"; "email"; "role"; "department"].

Definition fields_of (u : gmap string string) : option Fields :=
  match u !! "id", u !! "employee_id", u !! "name", u !! "email",
        u !! "role", u !! "department" with
  | Some i, Some e, Some n, Some m, Some r, Some d => Some (mkFields i e n m r d)
  | _, _, _, _, _, _ => None
  end.

(** The first of the six fields that a profile lacks, in the order
    [generate_token] reads them. *)
Definition first_absent (u : gmap string string) : option string :=
  find (fun k => match u !! k with None => true | Some _ => false end) field_names.

(** The dictionary [generate_token] hands to [jwt.encode]. *)
Definition payload_entries (f : Fields) (now : Z) (jti : N) : list (string * pyval) :=
  [("user_id", VStr (f_id f));
   ("employee_id", VStr (f_employee_id f));
   ("name", VStr (f_name f));
   ("email", VStr (f_email f));
   ("role", VStr (f_role f));
   ("department", VStr (f_department f));
   ("jti", VStr (uuid_str jti));
   ("iss", VStr JWT_ISSUER);
   ("sub", VStr (f_id f));
   ("aud", VList [VStr "ga-ticketing-client"]);
   ("exp", VDatetime (now + timedelta_hours 24));
   ("nbf", VDatetime now);
   ("iat", VDatetime now)].

(** The claims that are serialised: the time claims as numeric dates. *)
Definition claims (f : Fields) (now : Z) (jti : N) : list (string * pyval) :=
  [("user_id", VStr (f_id f));
   ("employee_id", VStr (f_employee_id f));
   ("name", VStr (f_name f));
   ("email", VStr (f_email f));
   ("role", VStr (f_role f));
   ("department", VStr (f_department f));
   ("jti", VStr (uuid_str jti));
   ("iss", VStr JWT_ISSUER);
   ("sub", VStr (f_id f));
   ("aud", VList [VStr "ga-ticketing-client"]);
   ("exp", VInt (numeric_date (now + timedelta_hours 24)));
   ("nbf", VInt (numeric_date now));
   ("iat", VInt (numeric_date now))].

Definition claims_text (f : Fields) (now : Z) (jti : N) : string :=
  match Json.encode None "," ":" 0 (VDict (claims f now jti)) with
  | Some text => text
  | None => EmptyString
  end.

(** The instants a [datetime] can hold, from the first microsecond of
    year 1 to the last of year 9999, in microseconds since the epoch. *)
Definition datetime_min : Z := (-62135596800000000)%Z.
Definition datetime_max : Z := 253402300799999999%Z.

Definition is_datetime (us : Z) : bool :=
  (datetime_min <=? us)%Z && (us <=? datetime_max)%Z.

(** The names of the claims of a token, in the order they are written. *)
Definition claim_names : list string :=
  ["user_id"; "employee_id"; "name"; "email"; "role"; "department"; "jti";
   "iss"; "sub"; "aud"; "exp"; "nbf"; "iat"].

(** The header segment of every HS256 token: the base64url text of the
    JSON object with alg HS256 and typ JWT. *)
Definition header_segment : string := "eyJhbGciOiJIUzI1NiIsInR5cCI6IkpXVCJ9".

Definition three_segments (token : string) : Prop :=
  exists h p s, split "." token = [h; p; s].

(** The time claims of [token], for a token generated at [t]. *)
Definition timestamps_consistent (t : Z) (token : string) : Prop :=
  exists nbf iat exp : Z,
    claim token "nbf" = Some (VInt nbf)
    /\ claim token "iat" = Some (VInt iat)
    /\ claim token "exp" = Some (VInt exp)
    /\ (nbf <= iat <= exp)%Z
    /\ iat = numeric_date t /\ nbf = numeric_date t
    /\ (exp - iat = 86400)%Z.

(** ** Vocabulary: runs *)

(** [runs m w x w']: from world [w], [m] returns [x] and leaves [w']. *)
Definition runs {A : Type} (m : Py A) (w : World) (x : A) (w' : World) : Prop :=
  m w = (inr x, w').

(** [fails m w e w']: from world [w], [m] raises [e] and leaves [w']. *)
Definition fails {A : Type} (m : Py A) (w : World) (e : exn) (w' : World) : Prop :=
  m w = (inl e, w').

(** [m] never changes the files. *)
Definition keeps_files {A : Type} (m : Py A) : Prop :=
  forall w, files (snd (m w)) = files w.

(** The console, the error stream, the files and the installed modules
    are the same in [w'] as in [w]. *)
Definition untouched (w w' : World) : Prop :=
  stdout w' = stdout w /\ stderr w' = stderr w /\ files w' = files w
  /\ site_packages w' = site_packages w.

Definition add_stdout (lines : list string) (w : World) : World :=
  mkWorld (clock w) (clock_reads w) (urandom w) (urandom_draws w)
    (site_packages w) (stdout w ++ lines) (stderr w) (files w).

Definition add_stderr (lines : list string) (w : World) : World :=
  mkWorld (clock w) (clock_reads w) (urandom w) (urandom_draws w)
    (site_packages w) (stdout w) (stderr w ++ lines) (files w).

(** The same world with other files. *)
Definition with_files (fs : gmap string string) (w : World) : World :=
  mkWorld (clock w) (clock_reads w) (urandom w) (urandom_draws w)
    (site_packages w) (stdout w) (stderr w) fs.

(** The world after a token was generated: one more reading of the
    clock and one more draw. *)
Definition after_token (w : World) : World :=
  mkWorld (clock w) (S (clock_reads w)) (urandom w) (S (urandom_draws w))
    (site_packages w) (stdout w) (stderr w) (files w).

(** The world after the clock was read. *)
Definition after_clock (w : World) : World :=
  mkWorld (clock w) (S (clock_reads w)) (urandom w) (urandom_draws w)
    (site_packages w) (stdout w) (stderr w) (files w).

(** The time and the UUID the next call of [generate_token] gets. *)
Definition now_of (w : World) : Z := clock w (clock_reads w).
Definition jti_of (w : World) : N := uuid4_int (urandom w (urandom_draws w)).

(** The world reached from [w] after [k] tokens were generated, [lines]
    were printed and, possibly, the token file was written. *)
Definition progress (k : nat) (lines : list string) (bundle : option string)
  (w : World) : World :=
  mkWorld (clock w) (k + clock_reads w) (urandom w) (k + urandom_draws w)
    (site_packages w) (stdout w ++ lines) (stderr w)
    (match bundle with
     | Some text => <["test_tokens.json" := text]> (files w)
     | None => files w
     end).

(** ** Vocabulary: the run of [main] *)

Definition requester_fields : Fields :=
  mkFields "req-001" "EMP001" "John Requester" "john.requester@company.com"
    "requester" "IT".
Definition approver_fields : Fields :=
  mkFields "app-001" "EMP002" "Jane Approver" "jane.approver@company.com"
    "approver" "Finance".
Definition admin_fields : Fields :=
  mkFields "adm-001" "EMP003" "Admin User" "admin@company.com" "admin" "GA".

(** The profile of a role in the table of [main]. *)
Definition profile_of (role : string) : gmap string string :=
  match dict_get users role with
  | Some u => u
  | None => ∅
  end.

(** The lines printed before the loop, for one user, and after the file
    is written. *)
Definition header_lines : list string :=
  ["GA Ticketing System - JWT Token Generator";
   "==================================================";
   EmptyString].

Definition block_lines (role : string) (f : Fields) (token : string) : list string :=
  [upper role +:+ " USER:";
   "  Name: " +:+ f_name f;
   "  Email: " +:+ f_email f;
   "  Role: " +:+ f_role f;
   "  Token: " +:+ token;
   EmptyString].

Definition footer_lines (requester approver admin : string) : list string :=
  ["Tokens saved to: test_tokens.json";
   EmptyString;
   "Usage examples:";
   export_line "REQUESTER_TOKEN" requester;
   export_line "APPROVER_TOKEN" approver;
   export_line "ADMIN_TOKEN" admin].

(** The lines of the guarded block at the end of the script. *)
Definition install_lines : list string :=
  ["Error: PyJWT is not installed."; "Install it with: pip install PyJWT"].

(** The roles the export lines of [main] name, in the order of these
    lines, and the first of them that a mapping lacks. *)
Definition export_roles : list string := ["requester"; "approver"; "admin"].

Definition first_unlisted (tokens : list (string * string)) : option string :=
  find (fun k => match dict_get tokens k with None => true | Some _ => false end)
    export_roles.

(** The text of the token file. *)
Definition bundle_text (tokens : list (string * string)) : string :=
  match Json.encode (Some 2%nat) "," ": " 0 (tokens_value tokens) with
  | Some text => text
  | None => EmptyString
  end.

(** The world before the loop of [main]. *)
Definition after_header (w : World) : World := progress 0 header_lines None w.

Section TokenVocabulary.

Variable hmac_sha256 : string -> string -> string.

Definition signing_input (f : Fields) (now : Z) (jti : N) : string :=
  header_segment +:+ "." +:+ urlsafe_encode (claims_text f now jti).

(** The token for the fields [f], generated at [now] with UUID [jti]. *)
Definition token_of (f : Fields) (now : Z) (jti : N) : string :=
  signing_input f now jti +:+ "."
  +:+ urlsafe_encode (hmac_sha256 JWT_SECRET (signing_input f now jti)).

(** The token generated for [f] when [k] tokens were generated since [w]. *)
Definition nth_token (f : Fields) (k : nat) (w : World) : string :=
  token_of f
    (clock w (k + clock_reads w))
    (uuid4_int (urandom w (k + urandom_draws w))).

(** The three tokens of a run from world [w]. *)
Definition run_tokens (w : World) : list (string * string) :=
  [("requester", nth_token requester_fields 0 w);
   ("approver", nth_token approver_fields 1 w);
   ("admin", nth_token admin_fields 2 w)].

(** Everything the run prints. *)
Definition run_lines (w : World) : list string :=
  header_lines
  ++ block_lines "requester" requester_fields (nth_token requester_fields 0 w)
  ++ block_lines "approver" approver_fields (nth_token approver_fields 1 w)
  ++ block_lines "admin" admin_fields (nth_token admin_fields 2 w)
  ++ footer_lines (nth_token requester_fields 0 w) (nth_token approver_fields 1 w)
       (nth_token admin_fields 2 w).

(** The world a run leaves. *)
Definition after_main (w : World) : World :=
  progress 3 (run_lines w) (Some (bundle_text (run_tokens w))) w.

End TokenVocabulary.

(** ** Vocabulary: sample inputs *)

(** A stand-in for the keyed digest, to evaluate the model on concrete
    inputs; no theorem depends on what it computes. *)
Definition sample_hmac (key message : string) : string :=
  take 32 (message +:+ key).

(** Worlds to evaluate the model in: a clock that starts on
    2023-11-14 22:13:20.123456 UTC, a random source, an empty console
    and no files; PyJWT is installed in the first and not in the second. *)
Definition sample_clock (n : nat) : Z :=
  match n with
  | 0%nat => 1700000000123456
  | 1%nat => 1700000000223456
  | _ => 1700000000323456
  end.

Definition sample_urandom (n : nat) : N :=
  match n with
  | 0%nat => 0x123456789abcdef0123456789abcdef0
  | 1%nat => 0x0f1e2d3c4b5a69788796a5b4c3d2e1f0
  | _ => 0xffeeddccbbaa99887766554433221100
  end.

Definition sample_world : World :=
  mkWorld sample_clock 0 sample_urandom 0 {["jwt"]} [] [] ∅.

Definition bare_world : World :=
  mkWorld sample_clock 0 sample_urandom 0 ∅ [] [] ∅.

(** The first world after one draw of the random source, and with a
    console and a file of its own. *)
Definition second_draw_world : World :=
  mkWorld sample_clock 0 sample_urandom 1 {["jwt"]} [] [] ∅.

Definition busy_world : World :=
  with_files {["test_tokens.json" := "{}"]} (add_stdout ["x"] sample_world).

(** The approver's profile without its email. *)
Definition broken_profile : gmap string string :=
  delete "email" (profile_of "approver").

(** The first world after the block of the requester was printed. *)
Definition after_requester : World :=
  progress 1
    (header_lines
     ++ block_lines "requester" requester_fields
          (nth_token sample_hmac requester_fields 0 sample_world))
    None sample_world.

(** A world whose clock reads another instant of the second the first
    world starts in, and a table of two users in another order. *)
Definition same_second_world : World :=
  mkWorld (fun _ => 1700000000999999%Z) 0 sample_urandom 0 {["jwt"]} [] [] ∅.

Definition two_roles : list (string * gmap string string) :=
  [("admin", profile_of "admin"); ("requester", profile_of "requester")].

(** * Proofs *)

(** Linear arithmetic with division and remainder by constants. *)
Ltac divlia := zify; Z.to_euclidean_division_equations; lia.

(** ** Text *)

Section StringFacts.

Lemma append_nil_l (s : string) : EmptyString +:+ s = s.
Proof. reflexivity. Qed.

Lemma append_cons (c : ascii) (a b : string) :
  String c a +:+ b = String c (a +:+ b).
Proof. reflexivity. Qed.

Lemma append_nil_r (s : string) : s +:+ EmptyString = s.
Proof.
  induction s as [|c s IH]; [reflexivity|].
  now rewrite append_cons, IH.
Qed.

Lemma append_assoc (a b c : string) : (a +:+ b) +:+ c = a +:+ (b +:+ c).
Proof.
  induction a as [|x a IH]; [reflexivity|].
  now rewrite !append_cons, IH.
Qed.

Lemma length_append (a b : string) :
  String.length (a +:+ b) = (String.length a + String.length b)%nat.
Proof.
  induction a as [|x a IH]; [reflexivity|].
  rewrite append_cons. simpl. now rewrite IH.
Qed.

(** Induction on strings three characters at a time. *)
Lemma string_ind3 (P : string -> Prop) :
  P EmptyString ->
  (forall a, P (String a EmptyString)) ->
  (forall a b, P (String a (String b EmptyString))) ->
  (forall a b c r, P r -> P (String a (String b (String c r)))) ->
  forall s, P s.
Proof.
  intros H0 H1 H2 H3.
  assert (H : forall s, P s /\ (forall a, P (String a s))
                        /\ (forall a b, P (String a (String b s)))).
  { induction s as [|c s (IHa & IHb & IHc)].
    - auto.
    - repeat split; auto. }
  intros s. apply H.
Qed.

End StringFacts.

(** ** base64url: decoding undoes encoding *)

Lemma N_of_ascii_lt (a : ascii) : N_of_ascii a < 256.
Proof. apply N_ascii_bounded. Qed.

Lemma b64_val_char (n : N) : n < 64 -> b64_val (b64_char n) = Some n.
Proof.
  intros H.
  destruct n as [|p]; [reflexivity|].
  do 6 (destruct p as [p|p|]; try reflexivity; try lia).
Qed.

Lemma urlsafe_encode_3 (a b c : ascii) (r : string) :
  urlsafe_encode (String a (String b (String c r))) =
  let n := (N_of_ascii a * 256 + N_of_ascii b) * 256 + N_of_ascii c in
  String (b64_char (n / 262144))
    (String (b64_char (n / 4096 mod 64))
       (String (b64_char (n / 64 mod 64))
          (String (b64_char (n mod 64)) (urlsafe_encode r)))).
Proof. reflexivity. Qed.

Lemma urlsafe_decode_4 (a b c d : ascii) (r : string) :
  urlsafe_decode (String a (String b (String c (String d r)))) =
  match b64_val a, b64_val b, b64_val c, b64_val d, urlsafe_decode r with
  | Some x, Some y, Some z, Some u, Some rest =>
      let n := ((x * 64 + y) * 64 + z) * 64 + u in
      Some (String (ascii_of_N (n / 65536))
              (String (ascii_of_N (n / 256 mod 256))
                 (String (ascii_of_N (n mod 256)) rest)))
  | _, _, _, _, _ => None
  end.
Proof. reflexivity. Qed.

Lemma ascii_of_N_eq (n : N) (a : ascii) : n = N_of_ascii a -> ascii_of_N n = a.
Proof. intros ->. apply ascii_N_embedding. Qed.

Theorem urlsafe_decode_encode (s : string) :
  urlsafe_decode (urlsafe_encode s) = Some s.
Proof.
  induction s as [|a|a b|a b c r IH] using string_ind3.
  - reflexivity.
  - pose proof (N_of_ascii_lt a) as Ha.
    cbn [urlsafe_encode urlsafe_decode chr].
    rewrite !b64_val_char by divlia.
    unfold chr. do 2 f_equal. apply ascii_of_N_eq. divlia.
  - pose proof (N_of_ascii_lt a) as Ha. pose proof (N_of_ascii_lt b) as Hb.
    cbn [urlsafe_encode urlsafe_decode chr].
    rewrite !b64_val_char by divlia.
    cbv zeta. unfold chr.
    f_equal. f_equal; [|f_equal]; apply ascii_of_N_eq; divlia.
  - pose proof (N_of_ascii_lt a) as Ha. pose proof (N_of_ascii_lt b) as Hb.
    pose proof (N_of_ascii_lt c) as Hc.
    rewrite urlsafe_encode_3. cbv zeta. rewrite urlsafe_decode_4, IH.
    rewrite !b64_val_char by divlia.
    cbv zeta.
    f_equal. f_equal; [|f_equal; [|f_equal]]; apply ascii_of_N_eq; divlia.
Qed.

(** No character of the alphabet is a dot. *)
Lemma b64_char_not_dot (n : N) : Ascii.eqb (b64_char n) "." = false.
Proof.
  destruct (N.lt_ge_cases n 64) as [H|H].
  - destruct n as [|p]; [reflexivity|].
    do 6 (destruct p as [p|p|]; try reflexivity; try lia).
  - unfold b64_char.
    replace (N.to_nat n) with (64 + (N.to_nat n - 64))%nat by lia.
    reflexivity.
Qed.

Lemma urlsafe_encode_no_dot (s : string) : no_char "." (urlsafe_encode s) = true.
Proof.
  induction s as [|a|a b|a b c r IH] using string_ind3.
  - reflexivity.
  - cbn [urlsafe_encode chr no_char]. now rewrite !b64_char_not_dot.
  - cbn [urlsafe_encode chr no_char]. now rewrite !b64_char_not_dot.
  - rewrite urlsafe_encode_3. cbv zeta. cbn [no_char].
    now rewrite !b64_char_not_dot, IH.
Qed.

Lemma split_no_sep (sep : ascii) (s : string) :
  no_char sep s = true -> split sep s = [s].
Proof.
  induction s as [|c r IH]; [reflexivity|].
  cbn [no_char split]. intros [Hc Hr]%andb_true_iff.
  apply negb_true_iff in Hc. rewrite Hc, IH by exact Hr. reflexivity.
Qed.

Lemma split_app (sep : ascii) (a b : string) :
  no_char sep a = true ->
  split sep (a +:+ String sep b) = a :: split sep b.
Proof.
  induction a as [|c r IH].
  - intros _. rewrite append_nil_l. cbn [split]. now rewrite Ascii.eqb_refl.
  - cbn [no_char]. intros [Hc Hr]%andb_true_iff.
    apply negb_true_iff in Hc.
    rewrite append_cons. cbn [split]. rewrite Hc, IH by exact Hr. reflexivity.
Qed.

(** ** Hexadecimal and UUID text *)

Lemma hex_val_digit (d : N) : d < 16 -> hex_val (hex_digit d) = Some d.
Proof.
  intros H. destruct d as [|p]; [reflexivity|].
  do 4 (destruct p as [p|p|]; try reflexivity; try lia).
Qed.

Lemma hex_value_app (a b : string) (acc : N) :
  hex_value acc (a +:+ b) =
  match hex_value acc a with
  | Some x => hex_value x b
  | None => None
  end.
Proof.
  revert acc. induction a as [|c r IH]; intros acc; [reflexivity|].
  rewrite append_cons. cbn [hex_value].
  destruct (hex_val c); [apply IH | reflexivity].
Qed.

Lemma hex_value_fixed (k : nat) (n acc : N) :
  hex_value acc (hex_fixed k n) = Some (acc * 16 ^ N.of_nat k + n mod 16 ^ N.of_nat k).
Proof.
  revert n acc. induction k as [|k IH]; intros n acc.
  - cbn [hex_fixed hex_value]. f_equal. simpl. rewrite N.mod_1_r. lia.
  - cbn [hex_fixed]. rewrite hex_value_app, IH.
    cbn [chr hex_value].
    rewrite hex_val_digit by (apply N.mod_lt; lia).
    f_equal.
    rewrite Nat2N.inj_succ, N.pow_succ_r'.
    rewrite (N.Div0.mod_mul_r n 16 (16 ^ N.of_nat k)). lia.
Qed.

Lemma hex_len_bound (n : N) : n < 16 ^ N.of_nat (hex_len n).
Proof.
  unfold hex_len. rewrite N2Nat.id.
  apply N.lt_le_trans with (2 ^ N.size n); [apply N.size_gt|].
  change 16 with (2 ^ 4). rewrite <- N.pow_mul_r.
  apply N.pow_le_mono_r; [lia|]. divlia.
Qed.

Theorem hex_value_format (width : nat) (n : N) :
  hex_value 0 (format_0x width n) = Some n.
Proof.
  unfold format_0x. rewrite hex_value_fixed. f_equal.
  rewrite N.mul_0_l, N.add_0_l. apply N.mod_small.
  apply N.lt_le_trans with (16 ^ N.of_nat (hex_len n)); [apply hex_len_bound|].
  apply N.pow_le_mono_r; lia.
Qed.

(** *** Slices *)

Lemma text_take_drop (n : nat) (s : string) : take n s +:+ drop n s = s.
Proof.
  revert s. induction n as [|n IH]; intros s; [reflexivity|].
  destruct s as [|c r]; [reflexivity|].
  cbn [take drop]. now rewrite append_cons, IH.
Qed.

Lemma text_drop_drop (a b : nat) (s : string) : drop a (drop b s) = drop (b + a) s.
Proof.
  revert s. induction b as [|b IH]; intros s; [reflexivity|].
  destruct s as [|c r]; [now destruct a|].
  cbn [drop Nat.add]. apply IH.
Qed.

Lemma no_char_app (c : ascii) (a b : string) :
  no_char c (a +:+ b) = no_char c a && no_char c b.
Proof.
  induction a as [|x r IH]; [reflexivity|].
  rewrite append_cons. cbn [no_char]. now rewrite IH, andb_assoc.
Qed.

Lemma no_char_take (c : ascii) (n : nat) (s : string) :
  no_char c s = true -> no_char c (take n s) = true.
Proof.
  revert s. induction n as [|n IH]; intros s; [reflexivity|].
  destruct s as [|x r]; [reflexivity|].
  cbn [take no_char]. intros [Hx Hr]%andb_true_iff.
  now rewrite Hx, IH.
Qed.

Lemma no_char_drop (c : ascii) (n : nat) (s : string) :
  no_char c s = true -> no_char c (drop n s) = true.
Proof.
  revert s. induction n as [|n IH]; intros s; [easy|].
  destruct s as [|x r]; [reflexivity|].
  cbn [drop no_char]. intros [Hx Hr]%andb_true_iff. now apply IH.
Qed.

Lemma remove_char_app (c : ascii) (a b : string) :
  remove_char c (a +:+ b) = remove_char c a +:+ remove_char c b.
Proof.
  induction a as [|x r IH]; [reflexivity|].
  rewrite append_cons. cbn [remove_char].
  destruct (Ascii.eqb x c); [exact IH | now rewrite append_cons, IH].
Qed.

Lemma remove_char_absent (c : ascii) (s : string) :
  no_char c s = true -> remove_char c s = s.
Proof.
  induction s as [|x r IH]; [reflexivity|].
  cbn [no_char remove_char]. intros [Hx Hr]%andb_true_iff.
  apply negb_true_iff in Hx. now rewrite Hx, IH.
Qed.

Lemma hex_digit_not_dash (d : N) : Ascii.eqb (hex_digit d) "-" = false.
Proof.
  destruct (N.lt_ge_cases d 16) as [H|H].
  - destruct d as [|p]; [reflexivity|].
    do 4 (destruct p as [p|p|]; try reflexivity; try lia).
  - unfold hex_digit.
    replace (N.to_nat d) with (16 + (N.to_nat d - 16))%nat by lia.
    reflexivity.
Qed.

Lemma hex_fixed_no_dash (k : nat) (n : N) : no_char "-" (hex_fixed k n) = true.
Proof.
  revert n. induction k as [|k IH]; intros n; [reflexivity|].
  cbn [hex_fixed]. rewrite no_char_app, IH. cbn [chr no_char].
  now rewrite hex_digit_not_dash.
Qed.

Theorem uuid_int_of_str_uuid_str (n : N) : uuid_int_of_str (uuid_str n) = Some n.
Proof.
  unfold uuid_int_of_str, uuid_str, slice. cbv zeta.
  set (h := format_0x 32 n).
  assert (Hh : no_char "-" h = true) by apply hex_fixed_no_dash.
  change (8 - 0)%nat with 8%nat. change (12 - 8)%nat with 4%nat.
  change (16 - 12)%nat with 4%nat. change (20 - 16)%nat with 4%nat.
  change (drop 0 h) with h.
  rewrite !remove_char_app.
  change (remove_char "-" "-") with EmptyString. rewrite !append_nil_l.
  rewrite !remove_char_absent
    by (try apply no_char_take; try apply no_char_drop; exact Hh).
  replace (drop 20 h) with (drop 4 (drop 16 h)) by apply text_drop_drop.
  rewrite text_take_drop.
  replace (drop 16 h) with (drop 4 (drop 12 h)) by apply text_drop_drop.
  rewrite text_take_drop.
  replace (drop 12 h) with (drop 4 (drop 8 h)) by apply text_drop_drop.
  rewrite !text_take_drop.
  apply hex_value_format.
Qed.

Corollary uuid_str_inj (a b : N) : uuid_str a = uuid_str b -> a = b.
Proof.
  intros H. apply (f_equal uuid_int_of_str) in H.
  rewrite !uuid_int_of_str_uuid_str in H. congruence.
Qed.

(** ** Decimal *)

Lemma span_digits_uint (u : Decimal.uint) (rest : string) :
  starts_with_digit rest = false ->
  span_digits (NilEmpty.string_of_uint u +:+ rest) =
  (NilEmpty.string_of_uint u, rest).
Proof.
  intros Hr. induction u as [|u IH|u IH|u IH|u IH|u IH|u IH|u IH|u IH|u IH|u IH];
    cbn [NilEmpty.string_of_uint];
    try (rewrite append_cons; cbn [span_digits]; rewrite IH; reflexivity).
  rewrite append_nil_l. destruct rest as [|c r]; [reflexivity|].
  cbn [span_digits]. cbn [starts_with_digit] in Hr. now rewrite Hr.
Qed.

Lemma read_uint (u : Decimal.uint) (rest : string) :
  u <> Decimal.Nil ->
  starts_with_digit rest = false ->
  read_int (NilEmpty.string_of_uint u +:+ rest) =
  Some (Z.of_N (N.of_uint u), rest).
Proof.
  intros Hu Hr. unfold read_int.
  assert (Hhead : match NilEmpty.string_of_uint u +:+ rest with
                  | String c r => if Ascii.eqb c "-" then (true, r)
                                  else (false, NilEmpty.string_of_uint u +:+ rest)
                  | EmptyString => (false, NilEmpty.string_of_uint u +:+ rest)
                  end = (false, NilEmpty.string_of_uint u +:+ rest)).
  { destruct u; try congruence; reflexivity. }
  rewrite Hhead, span_digits_uint by exact Hr.
  assert (Hne : NilEmpty.string_of_uint u <> EmptyString)
    by (destruct u; try congruence; discriminate).
  destruct (NilEmpty.string_of_uint u) as [|c s] eqn:E; [congruence|].
  unfold NilZero.uint_of_string. rewrite <- E, NilEmpty.usu. reflexivity.
Qed.

Theorem read_int_repr (z : Z) (rest : string) :
  starts_with_digit rest = false ->
  read_int (int_repr z +:+ rest) = Some (z, rest).
Proof.
  intros Hr. unfold int_repr. destruct z as [|p|p]; cbn [Z.to_int].
  - change (NilZero.string_of_int (Decimal.Pos Decimal.zero))
      with (NilEmpty.string_of_uint (Decimal.D0 Decimal.Nil)).
    rewrite read_uint by (congruence || exact Hr). reflexivity.
  - pose proof (Unsigned.to_uint_nonnil p) as Hn.
    cbn [NilZero.string_of_int]. unfold NilZero.string_of_uint.
    destruct (Pos.to_uint p) as [|u|u|u|u|u|u|u|u|u|u] eqn:E; try congruence;
      rewrite <- E, read_uint by (try exact Hr; rewrite E; discriminate);
      unfold N.of_uint; rewrite Unsigned.of_to; reflexivity.
  - pose proof (Unsigned.to_uint_nonnil p) as Hn.
    cbn [NilZero.string_of_int]. unfold NilZero.string_of_uint.
    assert (Hs : forall u, u <> Decimal.Nil ->
              read_int (String "-" (NilEmpty.string_of_uint u) +:+ rest) =
              Some (Z.opp (Z.of_N (N.of_uint u)), rest)).
    { intros u Hu. unfold read_int. rewrite append_cons.
      change (Ascii.eqb "-" "-") with true. cbv iota beta.
      rewrite span_digits_uint by exact Hr.
      assert (Hne : NilEmpty.string_of_uint u <> EmptyString)
        by (destruct u; try congruence; discriminate).
      destruct (NilEmpty.string_of_uint u) as [|c s] eqn:E; [congruence|].
      unfold NilZero.uint_of_string. rewrite <- E, NilEmpty.usu. reflexivity. }
    destruct (Pos.to_uint p) as [|u|u|u|u|u|u|u|u|u|u] eqn:E; try congruence;
      rewrite <- E, Hs by (rewrite E; discriminate);
      unfold N.of_uint; rewrite Unsigned.of_to; reflexivity.
Qed.

(** ** JSON: what [dumps] writes, [loads] reads back *)

(** *** Strings *)

Lemma read_chars_escape_char (c : ascii) (tail : string) :
  read_chars (escape_char c +:+ tail) = cons_char c (read_chars tail).
Proof. destruct c as [[] [] [] [] [] [] [] []]; reflexivity. Qed.

Lemma read_chars_escape (s rest : string) :
  read_chars (escape s +:+ String dquote rest) = Some (s, rest).
Proof.
  induction s as [|c r IH]; [reflexivity|].
  cbn [escape]. rewrite append_assoc, read_chars_escape_char, IH. reflexivity.
Qed.

Lemma read_chars_encode_str (s rest : string) :
  exists tail, encode_str s +:+ rest = String dquote tail
               /\ read_chars tail = Some (s, rest).
Proof.
  exists (escape s +:+ String dquote rest). split.
  - unfold encode_str, chr. now rewrite append_cons, append_assoc.
  - apply read_chars_escape.
Qed.

(** *** White space *)

Lemma skip_ws_app (pre s : string) :
  all_ws pre = true -> skip_ws (pre +:+ s) = skip_ws s.
Proof.
  induction pre as [|c r IH]; [reflexivity|].
  cbn [all_ws]. intros [Hc Hr]%andb_true_iff.
  rewrite append_cons. cbn [skip_ws]. rewrite Hc. now apply IH.
Qed.

Lemma all_ws_app (a b : string) : all_ws (a +:+ b) = all_ws a && all_ws b.
Proof.
  induction a as [|c r IH]; [reflexivity|].
  rewrite append_cons. cbn [all_ws]. now rewrite IH, andb_assoc.
Qed.

Lemma all_ws_spaces (n : nat) : all_ws (spaces n) = true.
Proof. induction n as [|n IH]; [reflexivity|]. cbn [spaces all_ws]. now rewrite IH. Qed.

Lemma all_ws_newline_indent (indent : option nat) (level : nat) :
  all_ws (newline_indent indent level) = true.
Proof.
  unfold newline_indent. destruct indent as [n|]; [|reflexivity].
  cbn [all_ws]. now rewrite all_ws_spaces.
Qed.

Lemma read_value_skip (fuel : nat) (pre s : string) :
  all_ws pre = true -> read_value fuel (pre +:+ s) = read_value fuel s.
Proof.
  intros H. destruct fuel as [|f]; [reflexivity|].
  cbn [read_value]. now rewrite skip_ws_app.
Qed.

Lemma read_items_skip (fuel : nat) (pre s : string) :
  all_ws pre = true -> read_items fuel (pre +:+ s) = read_items fuel s.
Proof.
  intros H. destruct fuel as [|f]; [reflexivity|].
  cbn [read_items]. now rewrite read_value_skip.
Qed.

Lemma read_members_skip (fuel : nat) (pre s : string) :
  all_ws pre = true -> read_members fuel (pre +:+ s) = read_members fuel s.
Proof.
  intros H. destruct fuel as [|f]; [reflexivity|].
  cbn [read_members]. now rewrite skip_ws_app.
Qed.

(** *** The first character of a value *)

Lemma int_head_cases (c : ascii) :
  is_int_head c = true ->
  is_ws c = false /\ Ascii.eqb c dquote = false /\ Ascii.eqb c "[" = false
  /\ Ascii.eqb c "{" = false /\ Ascii.eqb c "n" = false
  /\ Ascii.eqb c "t" = false /\ Ascii.eqb c "f" = false
  /\ Ascii.eqb c "]" = false /\ Ascii.eqb c "}" = false.
Proof.
  destruct c as [[] [] [] [] [] [] [] []]; intros H; try discriminate H;
    repeat split; reflexivity.
Qed.

Lemma uint_head (u : Decimal.uint) (rest : string) :
  u <> Decimal.Nil ->
  exists c r, NilEmpty.string_of_uint u +:+ rest = String c r
              /\ is_int_head c = true.
Proof.
  intros Hu. destruct u; try congruence;
    cbn [NilEmpty.string_of_uint]; rewrite append_cons; eauto.
Qed.

Lemma int_repr_head (z : Z) (rest : string) :
  exists c r, int_repr z +:+ rest = String c r /\ is_int_head c = true.
Proof.
  unfold int_repr. destruct z as [|p|p]; cbn [Z.to_int NilZero.string_of_int].
  - exists "0"%char, rest. split; reflexivity.
  - pose proof (Unsigned.to_uint_nonnil p) as Hn.
    unfold NilZero.string_of_uint.
    destruct (Pos.to_uint p) eqn:E; try congruence;
      rewrite <- E; apply uint_head; congruence.
  - exists "-"%char, (NilZero.string_of_uint (Pos.to_uint p) +:+ rest).
    split; reflexivity.
Qed.

Lemma read_value_int (f : nat) (z : Z) (rest : string) :
  starts_with_digit rest = false ->
  read_value (S f) (int_repr z +:+ rest) = Some (VInt z, rest).
Proof.
  intros Hr.
  destruct (int_repr_head z rest) as (c & r & E & Hc).
  destruct (int_head_cases c Hc) as (H1 & H2 & H3 & H4 & H5 & H6 & H7 & _).
  cbn [read_value]. rewrite E. cbn [skip_ws]. rewrite H1, H2, H3, H4, H5, H6, H7.
  rewrite <- E, read_int_repr by exact Hr. reflexivity.
Qed.

Lemma read_value_str (f : nat) (s rest : string) :
  read_value (S f) (encode_str s +:+ rest) = Some (VStr s, rest).
Proof.
  destruct (read_chars_encode_str s rest) as (tail & E & H).
  cbn [read_value]. rewrite E. cbn [skip_ws].
  change (is_ws dquote) with false. cbv iota.
  rewrite Ascii.eqb_refl, H. reflexivity.
Qed.

(** *** Values *)

Lemma pyval_nested_ind (P : pyval -> Prop) :
  P VNone ->
  (forall b, P (VBool b)) ->
  (forall z, P (VInt z)) ->
  (forall s, P (VStr s)) ->
  (forall us, P (VDatetime us)) ->
  (forall items, Forall P items -> P (VList items)) ->
  (forall entries, Forall (fun kv => P (snd kv)) entries -> P (VDict entries)) ->
  forall v, P v.
Proof.
  intros HN HB HI HS HT HL HD.
  fix IH 1. intros [ |b|z|s|us|items|entries].
  - exact HN.
  - apply HB.
  - apply HI.
  - apply HS.
  - apply HT.
  - apply HL. induction items as [|x r IHr]; constructor; [apply IH | exact IHr].
  - apply HD. induction entries as [|[k x] r IHr]; constructor;
      [apply IH | exact IHr].
Qed.

Lemma opens_value_inv (s : string) :
  opens_value s = true ->
  exists c r, s = String c r /\ is_ws c = false
              /\ Ascii.eqb c "]" = false /\ Ascii.eqb c "}" = false.
Proof.
  destruct s as [|c r]; [discriminate|]. cbn [opens_value].
  intros [[H1 H2]%andb_true_iff H3]%andb_true_iff.
  exists c, r. rewrite negb_true_iff in H1, H2, H3. auto.
Qed.

Lemma starts_with_digit_ws (w : string) (c : ascii) (r : string) :
  all_ws w = true -> is_digit c = false ->
  starts_with_digit (w +:+ String c r) = false.
Proof.
  intros Hw Hc. destruct w as [|x w']; [exact Hc|].
  rewrite append_cons. cbn [starts_with_digit].
  cbn [all_ws] in Hw. apply andb_true_iff in Hw as [Hx _].
  revert Hx. destruct x as [[] [] [] [] [] [] [] []]; intros Hx;
    try discriminate Hx; reflexivity.
Qed.

Section Roundtrip.

Variable indent : option nat.
Variables item_ws key_ws : string.
Hypothesis item_ws_blank : all_ws item_ws = true.
Hypothesis key_ws_blank : all_ws key_ws = true.

Abbreviation item_separator := (comma_sep item_ws).
Abbreviation key_separator := (colon_sep key_ws).
Abbreviation enc := (Json.encode indent item_separator key_separator).
Abbreviation nl := (newline_indent indent).
Abbreviation roundtrips := (roundtrips indent item_ws key_ws).

Lemma encode_opens (level : nat) (v : pyval) (text rest : string) :
  enc level v = Some text -> opens_value (text +:+ rest) = true.
Proof.
  destruct v as [ |[|]|z|s|us|items|entries]; cbn [Json.encode];
    try (intros [= <-]; reflexivity); try discriminate.
  - intros [= <-].
    destruct (int_repr_head z rest) as (c & r & -> & Hc).
    destruct (int_head_cases c Hc) as (H1 & _ & _ & _ & _ & _ & _ & H8 & H9).
    cbn [opens_value]. now rewrite H1, H8, H9.
  - destruct (sequence _) as [texts|]; [|discriminate].
    intros [= <-]. destruct texts; reflexivity.
  - destruct (sequence _) as [texts|]; [|discriminate].
    intros [= <-]. destruct texts; reflexivity.
Qed.

Lemma read_items_join (items : list pyval) :
  Forall roundtrips items ->
  forall level texts closing rest fuel,
    items <> [] ->
    sequence (map (enc level) items) = Some texts ->
    all_ws closing = true ->
    (list_sum (map (fun x => S (size x)) items) <= fuel)%nat ->
    read_items fuel
      (join (item_separator +:+ nl level) texts +:+ closing +:+ String "]" rest)
    = Some (items, rest).
Proof.
  induction 1 as [|x items Hx Hitems IH]; intros level texts closing rest fuel
    Hne Hseq Hclosing Hfuel; [congruence|].
  cbn [map sequence] in Hseq.
  destruct (enc level x) as [t|] eqn:Et; [|discriminate].
  destruct (sequence (map (enc level) items)) as [ts|] eqn:Ets; [|discriminate].
  injection Hseq as <-.
  cbn [map list_sum fold_right] in Hfuel.
  destruct fuel as [|f]; [lia|].
  cbn [read_items].
  destruct items as [|y items'].
  - cbn [map sequence] in Ets. injection Ets as <-. cbn [join].
    rewrite (Hx level t (closing +:+ String "]" rest) f Et)
      by (try apply starts_with_digit_ws; auto; cbn [map list_sum fold_right] in Hfuel; lia).
    rewrite skip_ws_app by exact Hclosing. reflexivity.
  - assert (Hts : exists t2 ts', ts = t2 :: ts').
    { cbn [map sequence] in Ets. destruct (enc level y); [|discriminate].
      destruct (sequence _); [|discriminate]. injection Ets as <-. eauto. }
    destruct Hts as (t2 & ts' & ->).
    change (join (item_separator +:+ nl level) (t :: t2 :: ts'))
      with (t +:+ (item_separator +:+ nl level)
              +:+ join (item_separator +:+ nl level) (t2 :: ts')).
    unfold comma_sep at 1.
    rewrite !append_assoc, append_cons.
    rewrite (Hx level t _ f Et) by (auto; lia).
    cbn [skip_ws]. change (is_ws ",") with false. cbv iota.
    change (Ascii.eqb "," ",") with true. cbv iota.
    rewrite <- append_assoc.
    rewrite read_items_skip
      by (rewrite all_ws_app, item_ws_blank; apply all_ws_newline_indent).
    rewrite (IH level (t2 :: ts') closing rest f) by (auto; try congruence; cbn [map list_sum fold_right] in *; lia).
    reflexivity.
Qed.

Lemma read_members_join (entries : list (string * pyval)) :
  Forall (fun kv => roundtrips (snd kv)) entries ->
  forall level texts closing rest fuel,
    entries <> [] ->
    sequence
      (map (fun kv : string * pyval =>
              let (k, x) := kv in
              match enc level x with
              | Some t => Some (encode_str k +:+ key_separator +:+ t)
              | None => None
              end) entries) = Some texts ->
    all_ws closing = true ->
    (list_sum (map (fun kv : string * pyval => let (_, x) := kv in S (size x))
                 entries) <= fuel)%nat ->
    read_members fuel
      (join (item_separator +:+ nl level) texts +:+ closing +:+ String "}" rest)
    = Some (entries, rest).
Proof.
  induction 1 as [|[k x] entries Hx Hentries IH];
    intros level texts closing rest fuel Hne Hseq Hclosing Hfuel; [congruence|].
  cbn [snd] in Hx.
  cbn [map sequence] in Hseq.
  destruct (enc level x) as [t|] eqn:Et; [|discriminate].
  match type of Hseq with
  | match sequence ?l with _ => _ end = _ =>
      destruct (sequence l) as [ts|] eqn:Ets; [|discriminate]
  end.
  injection Hseq as <-.
  cbn [map list_sum fold_right] in Hfuel.
  destruct fuel as [|f]; [lia|].
  cbn [read_members].
  assert (Hkey : forall tail,
    starts_with_digit tail = false ->
    match skip_ws (encode_str k +:+ key_separator +:+ t +:+ tail) with
    | String q r0 =>
        if Ascii.eqb q dquote then
          match read_chars r0 with
          | Some (k', r1) =>
              match skip_ws r1 with
              | String colon r2 =>
                  if Ascii.eqb colon ":" then
                    match read_value f r2 with
                    | Some (v, r3) =>
                        match skip_ws r3 with
                        | String c r4 =>
                            if Ascii.eqb c "," then
                              match read_members f r4 with
                              | Some (ms, r5) => Some ((k', v) :: ms, r5)
                              | None => None
                              end
                            else if Ascii.eqb c "}" then Some ([(k', v)], r4)
                            else None
                        | EmptyString => None
                        end
                    | None => None
                    end
                  else None
              | EmptyString => None
              end
          | None => None
          end
        else None
    | EmptyString => None
    end =
    match skip_ws tail with
    | String c r4 =>
        if Ascii.eqb c "," then
          match read_members f r4 with
          | Some (ms, r5) => Some ((k, x) :: ms, r5)
          | None => None
          end
        else if Ascii.eqb c "}" then Some ([(k, x)], r4)
        else None
    | EmptyString => None
    end).
  { intros tail Htail.
    destruct (read_chars_encode_str k (key_separator +:+ t +:+ tail))
      as (body & -> & Hbody).
    cbn [skip_ws]. change (is_ws dquote) with false. cbv iota.
    rewrite Ascii.eqb_refl, Hbody.
    unfold colon_sep at 1. rewrite append_cons.
    cbn [skip_ws]. change (is_ws ":") with false. cbv iota.
    change (Ascii.eqb ":" ":") with true. cbv iota.
    rewrite read_value_skip by exact key_ws_blank.
    rewrite (Hx level t tail f Et) by (auto; lia). reflexivity. }
  destruct entries as [|[k2 y] entries'].
  - cbn [map sequence] in Ets. injection Ets as <-. cbn [join].
    rewrite !append_assoc.
    rewrite Hkey by (apply starts_with_digit_ws; auto).
    rewrite skip_ws_app by exact Hclosing. reflexivity.
  - assert (Hts : exists t2 ts', ts = t2 :: ts').
    { cbn [map sequence] in Ets. destruct (enc level y); [|discriminate].
      destruct (sequence _); [|discriminate]. injection Ets as <-. eauto. }
    destruct Hts as (t2 & ts' & ->).
    change (join (item_separator +:+ nl level)
              ((encode_str k +:+ key_separator +:+ t) :: t2 :: ts'))
      with ((encode_str k +:+ key_separator +:+ t)
              +:+ (item_separator +:+ nl level)
              +:+ join (item_separator +:+ nl level) (t2 :: ts')).
    unfold comma_sep at 1.
    rewrite !append_assoc.
    rewrite Hkey by reflexivity.
    rewrite append_cons.
    cbn [skip_ws]. change (is_ws ",") with false. cbv iota.
    change (Ascii.eqb "," ",") with true. cbv iota.
    rewrite read_members_skip by exact item_ws_blank.
    rewrite read_members_skip by apply all_ws_newline_indent.
    rewrite (IH level (t2 :: ts') closing rest f)
      by (auto; try congruence; cbn [map list_sum fold_right] in *; lia).
    reflexivity.
Qed.

Lemma join_opens (sep t tail : string) (ts : list string) :
  (forall rest, opens_value (t +:+ rest) = true) ->
  exists c r, join sep (t :: ts) +:+ tail = String c r
              /\ is_ws c = false
              /\ Ascii.eqb c "]" = false /\ Ascii.eqb c "}" = false.
Proof.
  intros H. destruct ts as [|t2 ts].
  - cbn [join]. apply opens_value_inv, H.
  - change (join sep (t :: t2 :: ts)) with (t +:+ sep +:+ join sep (t2 :: ts)).
    rewrite !append_assoc. apply opens_value_inv, H.
Qed.

Theorem read_value_encode (v : pyval) : roundtrips v.
Proof.
  induction v as [ |b|z|s|us|items IH|entries IH] using pyval_nested_ind;
    intros level text rest fuel Henc Hrest Hfuel;
    cbn [Json.encode] in Henc; cbn [size] in Hfuel;
    (destruct fuel as [|f]; [lia|]).
  - injection Henc as <-. reflexivity.
  - destruct b; injection Henc as <-; reflexivity.
  - injection Henc as <-. now apply read_value_int.
  - injection Henc as <-. apply read_value_str.
  - discriminate.
  - destruct (sequence (map _ items)) as [texts|] eqn:Hseq; [|discriminate].
    injection Henc as <-.
    destruct items as [|x items].
    + cbn [map sequence] in Hseq. injection Hseq as <-. reflexivity.
    + assert (Htexts : exists t ts, texts = t :: ts
                /\ Json.encode indent item_separator key_separator (S level) x = Some t).
      { cbn [map sequence] in Hseq. destruct (Json.encode _ _ _ _ x); [|discriminate].
        destruct (sequence _); [|discriminate]. injection Hseq as <-. eauto. }
      destruct Htexts as (t & ts & -> & Et).
      unfold enclose. rewrite !append_assoc, append_cons, append_nil_l.
      cbn [read_value skip_ws]. change (is_ws "[") with false. cbv iota.
      change (Ascii.eqb "[" dquote) with false.
      change (Ascii.eqb "[" "[") with true. cbv iota.
      rewrite skip_ws_app by apply all_ws_newline_indent.
      destruct (join_opens (item_separator +:+ newline_indent indent (S level))
                  t (newline_indent indent level +:+ String "]" rest) ts
                  (fun rest' => encode_opens (S level) x t rest' Et))
        as (c & r & E & H1 & H2 & _).
      rewrite E at 1. cbn [skip_ws]. rewrite H1, H2.
      rewrite read_items_skip by apply all_ws_newline_indent.
      change ("]" +:+ rest) with (String "]" rest).
      rewrite (read_items_join (x :: items) IH (S level) (t :: ts))
        by (auto using all_ws_newline_indent; try congruence; lia).
      reflexivity.
  - match type of Henc with
    | match sequence ?l with _ => _ end = _ =>
        destruct (sequence l) as [texts|] eqn:Hseq; [|discriminate]
    end.
    injection Henc as <-.
    destruct entries as [|[k x] entries].
    + cbn [map sequence] in Hseq. injection Hseq as <-. reflexivity.
    + assert (Htexts : exists t ts, texts = t :: ts).
      { cbn [map sequence] in Hseq. destruct (Json.encode _ _ _ _ x); [|discriminate].
        destruct (sequence _); [|discriminate]. injection Hseq as <-. eauto. }
      destruct Htexts as (t & ts & ->).
      unfold enclose. rewrite !append_assoc, append_cons, append_nil_l.
      cbn [read_value skip_ws]. change (is_ws "{") with false. cbv iota.
      change (Ascii.eqb "{" dquote) with false.
      change (Ascii.eqb "{" "[") with false.
      change (Ascii.eqb "{" "{") with true. cbv iota.
      rewrite skip_ws_app by apply all_ws_newline_indent.
      assert (Hopen : exists r,
                join (item_separator +:+ newline_indent indent (S level)) (t :: ts)
                +:+ newline_indent indent level +:+ String "}" rest
                = String dquote r).
      { cbn [map sequence] in Hseq.
        destruct (Json.encode _ _ _ _ x) as [tx|]; [|discriminate].
        destruct (sequence _) as [ts0|]; [|discriminate].
        injection Hseq as <- <-.
        destruct ts0 as [|t2 ts0].
        - cbn [join]. unfold encode_str. rewrite !append_cons. eauto.
        - change (join ?sep (?a :: t2 :: ts0))
            with (a +:+ sep +:+ join sep (t2 :: ts0)).
          unfold encode_str. rewrite !append_cons. eauto. }
      destruct Hopen as (r & E).
      rewrite E at 1. cbn [skip_ws]. change (is_ws dquote) with false. cbv iota.
      change (Ascii.eqb dquote "}") with false. cbv iota.
      rewrite read_members_skip by apply all_ws_newline_indent.
      change ("}" +:+ rest) with (String "}" rest).
      rewrite (read_members_join ((k, x) :: entries) IH (S level) (t :: ts))
        by (auto using all_ws_newline_indent; try congruence; lia).
      reflexivity.
Qed.

End Roundtrip.

(** *** The text is long enough to serve as fuel *)

Lemma length_join (sep : string) (texts : list string) :
  (1 <= String.length sep)%nat ->
  (list_sum (map String.length texts) + length texts
   <= S (String.length (join sep texts)))%nat.
Proof.
  intros Hsep. induction texts as [|t ts IH]; [simpl; lia|].
  destruct ts as [|t2 ts].
  - unfold list_sum; cbn [join map fold_right Datatypes.length]; lia.
  - change (join sep (t :: t2 :: ts)) with (t +:+ sep +:+ join sep (t2 :: ts)).
    rewrite !length_append.
    unfold list_sum in *; cbn [map fold_right Datatypes.length] in *. lia.
Qed.

Lemma length_enclose (indent : option nat) (sep opening closing : string)
  (level : nat) (texts : list string) :
  (1 <= String.length sep)%nat ->
  String.length opening = 1%nat -> String.length closing = 1%nat ->
  (S (list_sum (map String.length texts) + length texts)
   <= String.length (enclose indent sep opening closing level texts))%nat.
Proof.
  intros Hsep Ho Hc. unfold enclose. destruct texts as [|t ts].
  - rewrite length_append. unfold list_sum; cbn [map fold_right Datatypes.length]; lia.
  - rewrite !length_append.
    pose proof (length_join (sep +:+ newline_indent indent (S level)) (t :: ts)) as H.
    rewrite length_append in H. lia.
Qed.

Theorem size_le_length (indent : option nat) (item_separator key_separator : string)
  (v : pyval) :
  (1 <= String.length item_separator)%nat ->
  forall level text,
    Json.encode indent item_separator key_separator level v = Some text ->
    (size v <= String.length text)%nat.
Proof.
  intros Hsep.
  induction v as [ |b|z|s|us|items IH|entries IH] using pyval_nested_ind;
    intros level text Henc; cbn [Json.encode] in Henc; cbn [size].
  - injection Henc as <-. simpl. lia.
  - destruct b; injection Henc as <-; simpl; lia.
  - injection Henc as <-.
    destruct (int_repr_head z EmptyString) as (c & r & E & _).
    rewrite append_nil_r in E. rewrite E. simpl. lia.
  - injection Henc as <-. simpl. lia.
  - discriminate.
  - destruct (sequence (map _ items)) as [texts|] eqn:Hseq; [|discriminate].
    injection Henc as <-.
    pose proof (length_enclose indent item_separator "[" "]" level texts
                  Hsep eq_refl eq_refl) as Hlen.
    enough (list_sum (map (fun x => S (size x)) items)
            <= list_sum (map String.length texts) + length texts)%nat by lia.
    clear Hlen. revert texts Hseq.
    induction IH as [|x items Hx _ IHitems]; intros texts Hseq.
    + cbn [map sequence] in Hseq. injection Hseq as <-. simpl. lia.
    + cbn [map sequence] in Hseq.
      destruct (Json.encode _ _ _ _ x) as [t|] eqn:Et; [|discriminate].
      destruct (sequence _) as [ts|] eqn:Ets; [|discriminate].
      injection Hseq as <-.
      specialize (Hx _ _ Et). specialize (IHitems _ eq_refl).
      unfold list_sum in *; cbn [map fold_right Datatypes.length] in *. lia.
  - match type of Henc with
    | match sequence ?l with _ => _ end = _ =>
        destruct (sequence l) as [texts|] eqn:Hseq; [|discriminate]
    end.
    injection Henc as <-.
    pose proof (length_enclose indent item_separator "{" "}" level texts
                  Hsep eq_refl eq_refl) as Hlen.
    enough (list_sum (map (fun kv : string * pyval => let (_, x) := kv in S (size x))
                        entries)
            <= list_sum (map String.length texts) + length texts)%nat by lia.
    clear Hlen. revert texts Hseq.
    induction IH as [|[k x] entries Hx _ IHentries]; intros texts Hseq.
    + cbn [map sequence] in Hseq. injection Hseq as <-. simpl. lia.
    + cbn [map sequence] in Hseq. cbn [snd] in Hx.
      destruct (Json.encode _ _ _ _ x) as [t|] eqn:Et; [|discriminate].
      destruct (sequence _) as [ts|] eqn:Ets; [|discriminate].
      injection Hseq as <-.
      specialize (Hx _ _ Et). specialize (IHentries _ eq_refl).
      unfold list_sum in *; cbn [map fold_right Datatypes.length] in *.
      rewrite !length_append. lia.
Qed.

(** A document written with separators made of a comma or colon and
    blanks reads back as the value it was written from. *)
Theorem loads_encode (indent : option nat) (item_ws key_ws : string)
  (v : pyval) (text : string) :
  all_ws item_ws = true -> all_ws key_ws = true ->
  Json.encode indent (String "," item_ws) (String ":" key_ws) 0 v = Some text ->
  loads text = Some v.
Proof.
  intros Hi Hk Henc. unfold loads.
  assert (Hsep : (1 <= String.length (String "," item_ws))%nat) by (simpl; lia).
  pose proof (size_le_length indent _ _ v Hsep 0%nat text Henc) as Hsize.
  rewrite <- (append_nil_r text) at 2.
  rewrite (read_value_encode indent item_ws key_ws Hi Hk v 0%nat text EmptyString)
    by (auto; lia).
  reflexivity.
Qed.

Corollary loads_dumps_compact (v : pyval) (text : string) :
  dumps None (Some (",", ":")) v = inr text -> loads text = Some v.
Proof.
  unfold dumps.
  destruct (Json.encode None "," ":" 0 v) as [t|] eqn:E; [|discriminate].
  intros [= <-]. now apply (loads_encode None EmptyString EmptyString).
Qed.

Corollary loads_dumps_indent (n : nat) (v : pyval) (text : string) :
  dumps (Some n) None v = inr text -> loads text = Some v.
Proof.
  unfold dumps.
  destruct (Json.encode (Some n) "," ": " 0 v) as [t|] eqn:E; [|discriminate].
  intros [= <-]. now apply (loads_encode (Some n) EmptyString " ").
Qed.

(** ** Tokens: what [jwt.encode] returns decodes to the claims *)

Section Tokens.

Variable hmac_sha256 : string -> string -> string.

Lemma convert_payload (f : Fields) (now : Z) (jti : N) :
  fold_left convert_time_claim ["exp"; "iat"; "nbf"] (payload_entries f now jti)
  = claims f now jti.
Proof. reflexivity. Qed.

Lemma encode_claims (f : Fields) (now : Z) (jti : N) :
  Json.encode None "," ":" 0 (VDict (claims f now jti))
  = Some (claims_text f now jti).
Proof. reflexivity. Qed.

Lemma jwt_encode_payload (f : Fields) (now : Z) (jti : N) :
  Jwt.encode hmac_sha256 (VDict (payload_entries f now jti)) JWT_SECRET ALGORITHM
  = inr (Str (token_of hmac_sha256 f now jti)).
Proof.
  unfold Jwt.encode. rewrite convert_payload.
  change (dict_get (claims f now jti) "iss") with (Some (VStr JWT_ISSUER)).
  unfold dumps, compact. rewrite encode_claims.
  reflexivity.
Qed.

Lemma split_token (f : Fields) (now : Z) (jti : N) :
  split "." (token_of hmac_sha256 f now jti) =
  [header_segment; urlsafe_encode (claims_text f now jti);
   urlsafe_encode (hmac_sha256 JWT_SECRET (signing_input f now jti))].
Proof.
  unfold token_of, signing_input. rewrite !append_assoc.
  rewrite !(append_cons "." EmptyString), !append_nil_l.
  rewrite split_app by reflexivity.
  rewrite split_app by apply urlsafe_encode_no_dot.
  rewrite split_no_sep by apply urlsafe_encode_no_dot.
  reflexivity.
Qed.

Theorem decode_token (f : Fields) (now : Z) (jti : N) :
  decode_payload (token_of hmac_sha256 f now jti) = Some (VDict (claims f now jti)).
Proof.
  unfold decode_payload. rewrite split_token, urlsafe_decode_encode.
  apply (loads_encode None EmptyString EmptyString); [reflexivity..|].
  apply encode_claims.
Qed.

Theorem token_signature_ok (f : Fields) (now : Z) (jti : N) :
  signature_ok hmac_sha256 JWT_SECRET (token_of hmac_sha256 f now jti) = true.
Proof.
  unfold signature_ok. rewrite split_token, urlsafe_decode_encode.
  apply String.eqb_refl.
Qed.

End Tokens.

(** ** Runs of the script *)

Lemma runs_ret {A : Type} (x : A) (w : World) : runs (ret x) w x w.
Proof. reflexivity. Qed.

Lemma runs_bind {A B : Type} (m : Py A) (k : A -> Py B) (w w1 w2 : World)
  (x : A) (y : B) :
  runs m w x w1 -> runs (k x) w1 y w2 -> runs (bind m k) w y w2.
Proof. unfold runs, bind. now intros -> ->. Qed.

Lemma fails_bind {A B : Type} (m : Py A) (k : A -> Py B) (w w1 : World) (e : exn) :
  fails m w e w1 -> fails (bind m k) w e w1.
Proof. unfold fails, bind. now intros ->. Qed.

Lemma fails_bind_after {A B : Type} (m : Py A) (k : A -> Py B) (w w1 w2 : World)
  (x : A) (e : exn) :
  runs m w x w1 -> fails (k x) w1 e w2 -> fails (bind m k) w e w2.
Proof. unfold runs, fails, bind. now intros -> ->. Qed.

Lemma runs_print (line : string) (w : World) :
  runs (print line) w tt (add_stdout [line] w).
Proof. reflexivity. Qed.

Lemma add_stdout_add_stdout (a b : list string) (w : World) :
  add_stdout b (add_stdout a w) = add_stdout (a ++ b) w.
Proof. unfold add_stdout. cbn. now rewrite app_assoc. Qed.

Lemma runs_getitem (u : gmap string string) (k v : string) (w : World) :
  u !! k = Some v -> runs (getitem u k) w v w.
Proof. unfold runs, getitem. now intros ->. Qed.

Lemma fails_getitem (u : gmap string string) (k : string) (w : World) :
  u !! k = None -> fails (getitem u k) w (KeyError k) w.
Proof. unfold fails, getitem. now intros ->. Qed.

Lemma fields_of_Some (u : gmap string string) (f : Fields) :
  fields_of u = Some f ->
  u !! "id" = Some (f_id f) /\ u !! "employee_id" = Some (f_employee_id f)
  /\ u !! "name" = Some (f_name f) /\ u !! "email" = Some (f_email f)
  /\ u !! "role" = Some (f_role f) /\ u !! "department" = Some (f_department f).
Proof.
  unfold fields_of.
  destruct (u !! "id"), (u !! "employee_id"), (u !! "name"), (u !! "email"),
    (u !! "role"), (u !! "department"); try discriminate.
  intros [= <-]. cbn. auto 10.
Qed.

Section Runs.

Variable hmac_sha256 : string -> string -> string.

Theorem generate_token_runs (u : gmap string string) (f : Fields) (w : World) :
  fields_of u = Some f ->
  runs (generate_token hmac_sha256 u) w
    (token_of hmac_sha256 f (now_of w) (jti_of w)) (after_token w).
Proof.
  intros (H1 & H2 & H3 & H4 & H5 & H6)%fields_of_Some.
  unfold generate_token.
  eapply runs_bind; [reflexivity|].
  eapply runs_bind; [apply runs_getitem, H1|].
  eapply runs_bind; [apply runs_getitem, H2|].
  eapply runs_bind; [apply runs_getitem, H3|].
  eapply runs_bind; [apply runs_getitem, H4|].
  eapply runs_bind; [apply runs_getitem, H5|].
  eapply runs_bind; [apply runs_getitem, H6|].
  eapply runs_bind; [reflexivity|].
  eapply runs_bind; [apply runs_getitem, H1|].
  eapply runs_bind.
  - cbn [clock clock_reads urandom urandom_draws].
    change (VDict _) with (VDict (payload_entries f (now_of w) (jti_of w))).
    unfold runs. rewrite jwt_encode_payload. reflexivity.
  - apply runs_ret.
Qed.

End Runs.

(** *** What a computation leaves alone *)

Lemma keeps_files_ret {A : Type} (x : A) : keeps_files (ret x).
Proof. intros w. reflexivity. Qed.

Lemma keeps_files_raise {A : Type} (e : exn) : keeps_files (@raise A e).
Proof. intros w. reflexivity. Qed.

Lemma keeps_files_bind {A B : Type} (m : Py A) (k : A -> Py B) :
  keeps_files m -> (forall x, keeps_files (k x)) -> keeps_files (bind m k).
Proof.
  intros Hm Hk w. unfold bind. specialize (Hm w).
  destruct (m w) as [[e|x] w1]; cbn [snd] in *; [exact Hm|].
  now rewrite Hk.
Qed.

Lemma keeps_files_print (line : string) : keeps_files (print line).
Proof. intros w. reflexivity. Qed.

Lemma keeps_files_getitem (u : gmap string string) (k : string) :
  keeps_files (getitem u k).
Proof. intros w. unfold getitem. now destruct (u !! k). Qed.

Lemma keeps_files_lift {A : Type} (r : exn + A) : keeps_files (lift r).
Proof. intros w. now destruct r. Qed.

Lemma keeps_files_utcnow : keeps_files utcnow.
Proof. intros w. reflexivity. Qed.

Lemma keeps_files_uuid4 : keeps_files uuid4.
Proof. intros w. reflexivity. Qed.

Create HintDb keeps discriminated.
#[local] Hint Resolve keeps_files_ret keeps_files_raise keeps_files_print
  keeps_files_getitem keeps_files_lift keeps_files_utcnow keeps_files_uuid4 : keeps.

Ltac keeps_files_tac :=
  repeat first
    [ progress auto with keeps
    | apply keeps_files_bind; [|intros ?] ].

Section Frame.

Variable hmac_sha256 : string -> string -> string.

Lemma keeps_files_generate_token (u : gmap string string) :
  keeps_files (generate_token hmac_sha256 u).
Proof. unfold generate_token. keeps_files_tac. Qed.

Lemma keeps_files_loop_body (tokens : list (string * string))
  (item : string * gmap string string) :
  keeps_files (loop_body hmac_sha256 tokens item).
Proof.
  destruct item as [role u]. unfold loop_body.
  apply keeps_files_bind; [apply keeps_files_generate_token|intros token].
  keeps_files_tac.
Qed.

Lemma keeps_files_loop (items : list (string * gmap string string))
  (tokens : list (string * string)) :
  keeps_files (loop hmac_sha256 items tokens).
Proof.
  revert tokens. induction items as [|item rest IH]; intros tokens; cbn [loop].
  - apply keeps_files_ret.
  - apply keeps_files_bind; [apply keeps_files_loop_body | intros t; apply IH].
Qed.

Lemma loop_app (pre rest : list (string * gmap string string))
  (tokens tokens' : list (string * string)) (w w' : World) :
  runs (loop hmac_sha256 pre tokens) w tokens' w' ->
  loop hmac_sha256 (pre ++ rest) tokens w = loop hmac_sha256 rest tokens' w'.
Proof.
  revert tokens w. induction pre as [|item pre IH]; intros tokens w Hrun.
  - unfold runs in Hrun. cbn [loop ret] in Hrun. injection Hrun as <- <-.
    reflexivity.
  - cbn [app loop] in *. unfold runs, bind in *.
    destruct (loop_body hmac_sha256 tokens item w) as [[e|t] w1]; [discriminate|].
    now apply IH.
Qed.

End Frame.

(** *** The run of [main] *)

Lemma users_profiles :
  users = [("requester", profile_of "requester");
           ("approver", profile_of "approver");
           ("admin", profile_of "admin")].
Proof. reflexivity. Qed.

Lemma requester_profile_fields :
  fields_of (profile_of "requester") = Some requester_fields.
Proof. vm_compute. reflexivity. Qed.

Lemma approver_profile_fields :
  fields_of (profile_of "approver") = Some approver_fields.
Proof. vm_compute. reflexivity. Qed.

Lemma admin_profile_fields :
  fields_of (profile_of "admin") = Some admin_fields.
Proof. vm_compute. reflexivity. Qed.

Lemma tokens_value_serialisable (tokens : list (string * string)) :
  exists text,
    Json.encode (Some 2%nat) "," ": " 0 (tokens_value tokens) = Some text.
Proof.
  unfold tokens_value. cbn [Json.encode].
  match goal with
  | |- exists text, match sequence ?l with _ => _ end = _ =>
      assert (H : exists texts, sequence l = Some texts)
  end.
  { induction tokens as [|[k t] rest [texts IH]]; [now exists []|].
    cbn [map sequence fst snd Json.encode]. rewrite IH. eauto. }
  destruct H as [texts ->]. eauto.
Qed.

Lemma tokens_value_encodes (tokens : list (string * string)) :
  Json.encode (Some 2%nat) "," ": " 0 (tokens_value tokens)
  = Some (bundle_text tokens).
Proof.
  unfold bundle_text.
  destruct (tokens_value_serialisable tokens) as [text ->]. reflexivity.
Qed.

Lemma dumps_tokens (tokens : list (string * string)) :
  Json.dumps (Some 2%nat) None (tokens_value tokens) = inr (bundle_text tokens).
Proof. unfold dumps. now rewrite tokens_value_encodes. Qed.

Theorem loads_bundle (tokens : list (string * string)) :
  Json.loads (bundle_text tokens) = Some (tokens_value tokens).
Proof. apply (loads_dumps_indent 2), dumps_tokens. Qed.

Lemma print_progress (line : string) (k : nat) (lines : list string)
  (bundle : option string) (w : World) :
  runs (print line) (progress k lines bundle w) tt
    (progress k (lines ++ [line]) bundle w).
Proof.
  unfold runs, print, progress.
  cbn [clock clock_reads urandom urandom_draws site_packages stdout stderr files].
  now rewrite <- app_assoc.
Qed.

Lemma print_first (line : string) (w : World) :
  runs (print line) w tt (progress 0 [line] None w).
Proof. reflexivity. Qed.

Section Main.

Variable hmac_sha256 : string -> string -> string.

Lemma loop_body_runs (tokens : list (string * string)) (role : string)
  (u : gmap string string) (f : Fields) (w : World) :
  fields_of u = Some f ->
  let token := token_of hmac_sha256 f (now_of w) (jti_of w) in
  runs (loop_body hmac_sha256 tokens (role, u)) w
    (dict_set tokens role token)
    (add_stdout (block_lines role f token) (after_token w)).
Proof.
  intros Hf token.
  pose proof (fields_of_Some u f Hf) as (_ & _ & H3 & H4 & H5 & _).
  unfold loop_body.
  eapply runs_bind; [apply (generate_token_runs hmac_sha256 u f w Hf)|].
  cbv zeta.
  eapply runs_bind; [apply runs_print|].
  eapply runs_bind; [apply runs_getitem, H3|].
  eapply runs_bind; [apply runs_print|].
  eapply runs_bind; [apply runs_getitem, H4|].
  eapply runs_bind; [apply runs_print|].
  eapply runs_bind; [apply runs_getitem, H5|].
  eapply runs_bind; [apply runs_print|].
  eapply runs_bind; [apply runs_print|].
  eapply runs_bind; [apply runs_print|].
  rewrite !add_stdout_add_stdout. apply runs_ret.
Qed.

Lemma loop_body_progress (tokens : list (string * string)) (role : string)
  (u : gmap string string) (f : Fields) (k : nat) (lines : list string)
  (w : World) :
  fields_of u = Some f ->
  runs (loop_body hmac_sha256 tokens (role, u)) (progress k lines None w)
    (dict_set tokens role (nth_token hmac_sha256 f k w))
    (progress (S k) (lines ++ block_lines role f (nth_token hmac_sha256 f k w)) None w).
Proof.
  intros Hf.
  pose proof (loop_body_runs tokens role u f (progress k lines None w) Hf) as H.
  cbv zeta in H. unfold runs in *. rewrite H. f_equal.
  unfold add_stdout, after_token, progress, now_of, jti_of.
  cbn [clock clock_reads urandom urandom_draws site_packages stdout stderr files].
  now rewrite <- app_assoc.
Qed.

Lemma json_dump_file_progress (tokens : list (string * string)) (k : nat)
  (lines : list string) (w : World) :
  runs (json_dump_file (tokens_value tokens) "test_tokens.json" (Some 2%nat))
    (progress k lines None w) tt
    (progress k lines (Some (bundle_text tokens)) w).
Proof.
  unfold json_dump_file. rewrite dumps_tokens.
  eapply runs_bind; [apply runs_ret | reflexivity].
Qed.

Theorem main_with_users_runs (w : World) :
  runs (main_with hmac_sha256 users) w (run_tokens hmac_sha256 w) (after_main hmac_sha256 w).
Proof.
  rewrite users_profiles. unfold main_with.
  eapply runs_bind; [apply print_first|].
  eapply runs_bind; [apply print_progress|].
  eapply runs_bind; [apply print_progress|].
  eapply runs_bind.
  { cbn [loop].
    eapply runs_bind; [apply (loop_body_progress _ _ _ _ _ _ _ requester_profile_fields)|].
    eapply runs_bind; [apply (loop_body_progress _ _ _ _ _ _ _ approver_profile_fields)|].
    eapply runs_bind; [apply (loop_body_progress _ _ _ _ _ _ _ admin_profile_fields)|].
    apply runs_ret. }
  cbv zeta.
  eapply runs_bind; [apply json_dump_file_progress|].
  eapply runs_bind; [apply print_progress|].
  eapply runs_bind; [apply print_progress|].
  eapply runs_bind; [apply print_progress|].
  eapply runs_bind; [reflexivity|].
  eapply runs_bind; [apply print_progress|].
  eapply runs_bind; [reflexivity|].
  eapply runs_bind; [apply print_progress|].
  eapply runs_bind; [reflexivity|].
  eapply runs_bind; [apply print_progress|].
  reflexivity.
Qed.

End Main.

(** ** What [generate_token] returns *)

Ltac decide_true := apply (bool_decide_unpack _); vm_compute; exact I.

Section GenerateToken.

Variable hmac_sha256 : string -> string -> string.

Lemma claim_token_of (f : Fields) (now : Z) (jti : N) (name : string) :
  claim (token_of hmac_sha256 f now jti) name = dict_get (claims f now jti) name.
Proof. unfold claim. now rewrite decode_token. Qed.

Lemma token_three_segments (f : Fields) (now : Z) (jti : N) :
  three_segments (token_of hmac_sha256 f now jti).
Proof. unfold three_segments. rewrite split_token. eauto. Qed.

Lemma numeric_date_next_day (t : Z) :
  numeric_date (t + timedelta_hours 24) = (numeric_date t + 86400)%Z.
Proof.
  unfold numeric_date, timedelta_hours.
  change (24 * 3600 * 1000000)%Z with (86400 * 1000000)%Z.
  now rewrite Z.div_add by lia.
Qed.

(** A profile that lacks a field makes the call raise [KeyError] for
    the first one it lacks, after the clock was read. *)
Lemma generate_token_raises (u : gmap string string) (w : World) :
  fields_of u = None ->
  exists k, first_absent u = Some k
            /\ fails (generate_token hmac_sha256 u) w (KeyError k) (after_clock w).
Proof.
  intros Hnone. unfold generate_token, first_absent, field_names.
  destruct (u !! "id") as [v1|] eqn:E1.
  2:{ exists "id". split; [cbn [find]; now rewrite E1|].
      eapply fails_bind_after; [reflexivity|].
      apply fails_bind, fails_getitem, E1. }
  destruct (u !! "employee_id") as [v2|] eqn:E2.
  2:{ exists "employee_id". split; [cbn [find]; now rewrite E1, E2|].
      eapply fails_bind_after; [reflexivity|].
      eapply fails_bind_after; [apply runs_getitem, E1|].
      apply fails_bind, fails_getitem, E2. }
  destruct (u !! "name") as [v3|] eqn:E3.
  2:{ exists "name". split; [cbn [find]; now rewrite E1, E2, E3|].
      eapply fails_bind_after; [reflexivity|].
      eapply fails_bind_after; [apply runs_getitem, E1|].
      eapply fails_bind_after; [apply runs_getitem, E2|].
      apply fails_bind, fails_getitem, E3. }
  destruct (u !! "email") as [v4|] eqn:E4.
  2:{ exists "email". split; [cbn [find]; now rewrite E1, E2, E3, E4|].
      eapply fails_bind_after; [reflexivity|].
      eapply fails_bind_after; [apply runs_getitem, E1|].
      eapply fails_bind_after; [apply runs_getitem, E2|].
      eapply fails_bind_after; [apply runs_getitem, E3|].
      apply fails_bind, fails_getitem, E4. }
  destruct (u !! "role") as [v5|] eqn:E5.
  2:{ exists "role". split; [cbn [find]; now rewrite E1, E2, E3, E4, E5|].
      eapply fails_bind_after; [reflexivity|].
      eapply fails_bind_after; [apply runs_getitem, E1|].
      eapply fails_bind_after; [apply runs_getitem, E2|].
      eapply fails_bind_after; [apply runs_getitem, E3|].
      eapply fails_bind_after; [apply runs_getitem, E4|].
      apply fails_bind, fails_getitem, E5. }
  destruct (u !! "department") as [v6|] eqn:E6.
  2:{ exists "department". split; [cbn [find]; now rewrite E1, E2, E3, E4, E5, E6|].
      eapply fails_bind_after; [reflexivity|].
      eapply fails_bind_after; [apply runs_getitem, E1|].
      eapply fails_bind_after; [apply runs_getitem, E2|].
      eapply fails_bind_after; [apply runs_getitem, E3|].
      eapply fails_bind_after; [apply runs_getitem, E4|].
      eapply fails_bind_after; [apply runs_getitem, E5|].
      apply fails_bind, fails_getitem, E6. }
  unfold fields_of in Hnone. rewrite E1, E2, E3, E4, E5, E6 in Hnone. discriminate.
Qed.

Lemma first_absent_lookup (u : gmap string string) (k : string) :
  first_absent u = Some k -> In k field_names /\ u !! k = None.
Proof.
  unfold first_absent. intros H. apply find_some in H as [Hin Hk].
  split; [exact Hin|]. now destruct (u !! k).
Qed.

(** A call that returns was made on a profile with the six fields, and
    returns the token of these fields, of the time read and of the UUID
    drawn. *)
Lemma generate_token_inv (u : gmap string string) (w w' : World) (token : string) :
  generate_token hmac_sha256 u w = (inr token, w') ->
  exists f, fields_of u = Some f
            /\ token = token_of hmac_sha256 f (now_of w) (jti_of w)
            /\ w' = after_token w.
Proof.
  intros H. destruct (fields_of u) as [f|] eqn:Hf.
  - pose proof (generate_token_runs hmac_sha256 u f w Hf) as Hrun.
    unfold runs in Hrun. rewrite Hrun in H. injection H as <- <-. eauto.
  - destruct (generate_token_raises u w Hf) as (k & _ & Hfail).
    unfold fails in Hfail. rewrite Hfail in H. discriminate.
Qed.

Lemma generate_token_untouched (u : gmap string string) (w : World) :
  untouched w (snd (generate_token hmac_sha256 u w)).
Proof.
  destruct (fields_of u) as [f|] eqn:Hf.
  - pose proof (generate_token_runs hmac_sha256 u f w Hf) as H.
    unfold runs in H. rewrite H. repeat split.
  - destruct (generate_token_raises u w Hf) as (k & _ & H).
    unfold fails in H. rewrite H. repeat split.
Qed.

Lemma file_after_main (w : World) :
  files (after_main hmac_sha256 w) !! "test_tokens.json"
  = Some (bundle_text (run_tokens hmac_sha256 w)).
Proof. unfold after_main, progress. cbn [files]. apply lookup_insert_eq. Qed.

Lemma main_runs (w : World) :
  main hmac_sha256 w = (inr tt, after_main hmac_sha256 w).
Proof.
  unfold main.
  exact (runs_bind _ _ _ _ _ _ _ (main_with_users_runs hmac_sha256 w)
           (runs_ret tt _)).
Qed.

Lemma import_absent (w : World) :
  "jwt" ∉ site_packages w ->
  import_module "jwt" w = (inl (ModuleNotFoundError "jwt"), w).
Proof.
  intros H. unfold import_module.
  rewrite (bool_decide_eq_false_2 _ H). reflexivity.
Qed.

Lemma import_present (w : World) :
  "jwt" ∈ site_packages w -> import_module "jwt" w = (inr tt, w).
Proof.
  intros H. unfold import_module.
  rewrite (bool_decide_eq_true_2 _ H), orb_true_r. reflexivity.
Qed.

(** With PyJWT installed the script runs [main] and ends with status 0. *)
Theorem script_with_pyjwt (w : World) :
  "jwt" ∈ site_packages w ->
  run_script (script hmac_sha256) w = (0%Z, after_main hmac_sha256 w).
Proof.
  intros H. unfold run_script, script, main.
  assert (Hrun : runs
            (bind (import_module "jwt") (fun _ =>
             bind (import_module "json") (fun _ =>
             bind (import_module "datetime") (fun _ =>
             bind (import_module "uuid") (fun _ =>
             bind (try_except (import_module "jwt") is_ImportError
                     (bind (print "Error: PyJWT is not installed.") (fun _ =>
                      bind (print "Install it with: pip install PyJWT") (fun _ =>
                      raise (SystemExit 1)))))
                  (fun _ => bind (main_with hmac_sha256 users) (fun _ => ret tt)))))))
            w tt (after_main hmac_sha256 w)).
  { eapply runs_bind; [apply import_present, H|].
    eapply runs_bind; [reflexivity|].
    eapply runs_bind; [reflexivity|].
    eapply runs_bind; [reflexivity|].
    eapply runs_bind.
    { unfold runs, try_except. rewrite (import_present w H). reflexivity. }
    eapply runs_bind; [apply main_with_users_runs|]. apply runs_ret. }
  unfold runs in Hrun. rewrite Hrun. reflexivity.
Qed.

(** The guarded block at the end of the script, had it been reached
    without PyJWT: the install guidance is printed and the status is 1. *)
Theorem guard_without_pyjwt (w : World) :
  "jwt" ∉ site_packages w ->
  run_script
    (bind (try_except (import_module "jwt") is_ImportError
             (bind (print "Error: PyJWT is not installed.") (fun _ =>
              bind (print "Install it with: pip install PyJWT") (fun _ =>
              raise (SystemExit 1)))))
          (fun _ => main hmac_sha256)) w
  = (1%Z, add_stdout install_lines w).
Proof.
  intros H. unfold run_script, bind, try_except. rewrite (import_absent w H).
  transitivity (1%Z, add_stdout ["Install it with: pip install PyJWT"]
                       (add_stdout ["Error: PyJWT is not installed."] w));
    [reflexivity | now rewrite add_stdout_add_stdout].
Qed.

End GenerateToken.

(** * The model on concrete inputs

    The expected texts were produced by Python's [json], [base64],
    [uuid] and [calendar] modules. *)

Example uuid4_sets_version_and_variant :
  uuid_str (uuid4_int 0x123456789abcdef0123456789abcdef0)
  = "12345678-9abc-4ef0-9234-56789abcdef0".
Proof. vm_compute. reflexivity. Qed.

Example numeric_date_drops_microseconds :
  numeric_date 1700000000123456 = 1700000000%Z
  /\ numeric_date (-500000) = (-1)%Z.
Proof. split; reflexivity. Qed.

Example urlsafe_encode_bytes :
  urlsafe_encode
    (String "000" (String "255" (String "016" (String "200" (String "007" EmptyString)))))
  = "AP8QyAc".
Proof. vm_compute. reflexivity. Qed.

Example header_segment_encodes_header :
  match Json.dumps None compact (VDict [("alg", VStr ALGORITHM); ("typ", VStr "JWT")]) with
  | inr text => urlsafe_encode text
  | inl _ => EmptyString
  end = header_segment.
Proof. vm_compute. reflexivity. Qed.

Example admin_payload_segment :
  urlsafe_encode
    (claims_text admin_fields 1700000000123456 0x123456789abc4ef0923456789abcdef0)
  = "eyJ1c2VyX2lkIjoiYWRtLTAwMSIsImVtcGxveWVlX2lkIjoiRU1QMDAzIiwibmFtZSI6IkFkbWluIFVzZXIiLCJlbWFpbCI6ImFkbWluQGNvbXBhbnkuY29tIiwicm9sZSI6ImFkbWluIiwiZGVwYXJ0bWVudCI6IkdBIiwianRpIjoiMTIzNDU2NzgtOWFiYy00ZWYwLTkyMzQtNTY3ODlhYmNkZWYwIiwiaXNzIjoiZ2EtdGlja2V0aW5nLXN5c3RlbSIsInN1YiI6ImFkbS0wMDEiLCJhdWQiOlsiZ2EtdGlja2V0aW5nLWNsaWVudCJdLCJleHAiOjE3MDAwODY0MDAsIm5iZiI6MTcwMDAwMDAwMCwiaWF0IjoxNzAwMDAwMDAwfQ".
Proof. vm_compute. reflexivity. Qed.

Example bundle_text_indented :
  urlsafe_encode
    (bundle_text [("requester", "a.b.c"); ("approver", "d.e.f"); ("admin", "g.h.i")])
  = "ewogICJyZXF1ZXN0ZXIiOiAiYS5iLmMiLAogICJhcHByb3ZlciI6ICJkLmUuZiIsCiAgImFkbWluIjogImcuaC5pIgp9".
Proof. vm_compute. reflexivity. Qed.

Example sample_run :
  fst (run_script (script sample_hmac) sample_world) = 0%Z
  /\ claim (nth_token sample_hmac admin_fields 2 sample_world) "sub"
     = Some (VStr "adm-001")
  /\ fst (run_script (script sample_hmac) bare_world) = 1%Z
  /\ stdout (snd (run_script (script sample_hmac) bare_world)) = [].
Proof. repeat split; vm_compute; reflexivity. Qed.

(** * The claims *)

Section Claims.

Variable hmac_sha256 : string -> string -> string.

(** C1. Every token [generate_token] returns carries consistent time
    claims: the clock is read once, at the start of the call; the token
    is the encoding of a payload whose [iat] and [nbf] are that reading
    and whose [exp] is 24 hours later; the decoded [iat] and [nbf] are
    both the numeric date (whole seconds) of the reading and the
    decoded [exp] is exactly 86400 seconds later, so
    [nbf <= iat <= exp]. *)
Theorem generate_token_timestamps (u : gmap string string) (w w' : World)
  (token : string) :
  generate_token hmac_sha256 u w = (inr token, w') ->
  clock_reads w' = S (clock_reads w)
  /\ (exists f jti,
        Jwt.encode hmac_sha256
          (VDict (payload_entries f (clock w (clock_reads w)) jti))
          JWT_SECRET ALGORITHM = inr (Str token))
  /\ timestamps_consistent (clock w (clock_reads w)) token.
Proof.
  intros (f & _ & -> & ->)%generate_token_inv. split; [reflexivity|].
  split; [exists f, (jti_of w); apply jwt_encode_payload|].
  exists (numeric_date (now_of w)), (numeric_date (now_of w)),
    (numeric_date (now_of w + timedelta_hours 24)).
  rewrite !claim_token_of. repeat split; try reflexivity;
    rewrite numeric_date_next_day; lia.
Qed.

(** C2. For each of the three profiles of the table, [generate_token]
    returns a string of three dot-separated segments, the third being
    the signature of the first two, whose decoded middle segment has
    [sub] equal to the profile's id and [role] equal to the profile's
    role; for the admin profile it has sub adm-001, role admin, aud
    the one-element list ga-ticketing-client and iss
    ga-ticketing-system. *)
Theorem generate_token_roles (w : World) :
  Forall (fun item : string * gmap string string =>
            exists token w' id role,
              generate_token hmac_sha256 (snd item) w = (inr token, w')
              /\ three_segments token
              /\ signature_ok hmac_sha256 JWT_SECRET token = true
              /\ snd item !! "id" = Some id
              /\ snd item !! "role" = Some role
              /\ claim token "sub" = Some (VStr id)
              /\ claim token "role" = Some (VStr role)) users
  /\ exists admin token w',
       dict_get users "admin" = Some admin
       /\ admin !! "id" = Some "adm-001"
       /\ generate_token hmac_sha256 admin w = (inr token, w')
       /\ claim token "sub" = Some (VStr "adm-001")
       /\ claim token "role" = Some (VStr "admin")
       /\ claim token "aud" = Some (VList [VStr "ga-ticketing-client"])
       /\ claim token "iss" = Some (VStr "ga-ticketing-system").
Proof.
  assert (Hone : forall role f,
            fields_of (profile_of role) = Some f ->
            exists token w' id r,
              generate_token hmac_sha256 (profile_of role) w = (inr token, w')
              /\ three_segments token
              /\ signature_ok hmac_sha256 JWT_SECRET token = true
              /\ profile_of role !! "id" = Some id
              /\ profile_of role !! "role" = Some r
              /\ claim token "sub" = Some (VStr id)
              /\ claim token "role" = Some (VStr r)).
  { intros role f Hf.
    destruct (fields_of_Some _ _ Hf) as (H1 & _ & _ & _ & H5 & _).
    exists (token_of hmac_sha256 f (now_of w) (jti_of w)), (after_token w),
      (f_id f), (f_role f).
    split; [apply (generate_token_runs hmac_sha256 _ f w Hf)|].
    split; [apply token_three_segments|].
    split; [apply token_signature_ok|].
    rewrite !claim_token_of. auto. }
  split.
  - rewrite users_profiles.
    repeat constructor; cbn [snd];
      [apply (Hone _ _ requester_profile_fields)
      |apply (Hone _ _ approver_profile_fields)
      |apply (Hone _ _ admin_profile_fields)].
  - exists (profile_of "admin"),
      (token_of hmac_sha256 admin_fields (now_of w) (jti_of w)), (after_token w).
    split; [reflexivity|].
    split; [apply (fields_of_Some _ _ admin_profile_fields)|].
    split; [apply (generate_token_runs hmac_sha256 _ _ w admin_profile_fields)|].
    rewrite !claim_token_of. auto.
Qed.

(** C3. After a run of [main], the keys of the token mapping and the
    keys of the JSON object in the file test_tokens.json are the roles
    of the table of users, each once: requester, approver and admin. *)
Theorem main_token_roles (w : World) :
  exists tokens w' text members,
    main_with hmac_sha256 users w = (inr tokens, w')
    /\ main hmac_sha256 w = (inr tt, w')
    /\ files w' !! "test_tokens.json" = Some text
    /\ Json.loads text = Some (VDict members)
    /\ dict_keys tokens = dict_keys users
    /\ dict_keys members = dict_keys users
    /\ NoDup (dict_keys tokens)
    /\ (list_to_set (dict_keys tokens) : gset string)
       = {["requester"; "approver"; "admin"]}
    /\ (list_to_set (dict_keys members) : gset string)
       = {["requester"; "approver"; "admin"]}.
Proof.
  exists (run_tokens hmac_sha256 w), (after_main hmac_sha256 w),
    (bundle_text (run_tokens hmac_sha256 w)).
  eexists.
  split; [apply main_with_users_runs|].
  split; [apply main_runs|].
  split; [apply file_after_main|].
  split; [apply loads_bundle|].
  split; [reflexivity|]. split; [reflexivity|].
  split; [|split]; decide_true.
Qed.

(** C4. Without PyJWT, the script ends with status 1 before any token
    work, on the import at its top: the interpreter reports the
    missing module on the standard error, and nothing is printed on the
    standard output; the install guidance of the guarded block is not
    reached. *)
Theorem script_without_pyjwt (w : World) :
  "jwt" ∉ site_packages w ->
  run_script (script hmac_sha256) w
  = (1%Z, add_stderr ["ModuleNotFoundError: No module named 'jwt'"] w).
Proof.
  intros H. unfold run_script, script, bind. rewrite (import_absent w H).
  reflexivity.
Qed.

(** C5, amended. [generate_token] does not validate the values of the
    fields: on a profile that has the six fields, whatever strings they
    hold, the call returns a token whose decoded payload carries them
    as they are; on a profile that lacks a field, the call raises
    [KeyError] for the first field it lacks. *)
Theorem generate_token_fields (u : gmap string string) (w : World) :
  match fields_of u with
  | Some f =>
      exists token w',
        generate_token hmac_sha256 u w = (inr token, w')
        /\ claim token "user_id" = Some (VStr (f_id f))
        /\ claim token "employee_id" = Some (VStr (f_employee_id f))
        /\ claim token "name" = Some (VStr (f_name f))
        /\ claim token "email" = Some (VStr (f_email f))
        /\ claim token "role" = Some (VStr (f_role f))
        /\ claim token "department" = Some (VStr (f_department f))
        /\ claim token "sub" = Some (VStr (f_id f))
  | None =>
      exists k w',
        first_absent u = Some k /\ u !! k = None
        /\ generate_token hmac_sha256 u w = (inl (KeyError k), w')
  end.
Proof.
  destruct (fields_of u) as [f|] eqn:Hf.
  - exists (token_of hmac_sha256 f (now_of w) (jti_of w)), (after_token w).
    split; [apply (generate_token_runs hmac_sha256 u f w Hf)|].
    rewrite !claim_token_of. repeat split; reflexivity.
  - destruct (generate_token_raises hmac_sha256 u w Hf) as (k & Hk & Hfail).
    exists k, (after_clock w). split; [exact Hk|].
    split; [apply (first_absent_lookup u k Hk) | exact Hfail].
Qed.

(** C6, amended. [generate_token] changes neither the console, nor the
    error stream, nor the files, nor the installed modules, and its
    result is determined by the profile, the time read and the UUID
    drawn: two calls on the same profile that read the same time and
    draw the same UUID have the same result. *)
Theorem generate_token_deterministic (u : gmap string string) (w1 w2 : World) :
  clock w1 (clock_reads w1) = clock w2 (clock_reads w2) ->
  uuid4_int (urandom w1 (urandom_draws w1))
  = uuid4_int (urandom w2 (urandom_draws w2)) ->
  fst (generate_token hmac_sha256 u w1) = fst (generate_token hmac_sha256 u w2)
  /\ untouched w1 (snd (generate_token hmac_sha256 u w1))
  /\ untouched w2 (snd (generate_token hmac_sha256 u w2)).
Proof.
  intros Hnow Hjti.
  split; [|split; apply generate_token_untouched].
  destruct (fields_of u) as [f|] eqn:Hf.
  - pose proof (generate_token_runs hmac_sha256 u f w1 Hf) as H1.
    pose proof (generate_token_runs hmac_sha256 u f w2 Hf) as H2.
    unfold runs in H1, H2. rewrite H1, H2. cbn [fst].
    unfold now_of, jti_of. now rewrite Hnow, Hjti.
  - destruct (generate_token_raises hmac_sha256 u w1 Hf) as (k1 & Hk1 & H1).
    destruct (generate_token_raises hmac_sha256 u w2 Hf) as (k2 & Hk2 & H2).
    unfold fails in H1, H2. rewrite H1, H2. cbn [fst]. congruence.
Qed.

(** C7. The file is written only after every token was generated: when
    the loop of [main] has gone through the entries [pre] of its table
    and [generate_token] raises on the next one, the run ends with that
    exception and the files are those it started with. *)
Theorem main_aborts_before_write (pre post : list (string * gmap string string))
  (role : string) (u : gmap string string) (w w1 w2 : World)
  (tokens : list (string * string)) (e : exn) :
  loop hmac_sha256 pre [] (after_header w) = (inr tokens, w1) ->
  generate_token hmac_sha256 u w1 = (inl e, w2) ->
  main_with hmac_sha256 (pre ++ (role, u) :: post) w = (inl e, w2)
  /\ files w2 = files w.
Proof.
  intros Hpre Hgen. split.
  - unfold main_with.
    eapply fails_bind_after; [apply print_first|].
    eapply fails_bind_after; [apply print_progress|].
    eapply fails_bind_after; [apply print_progress|].
    apply fails_bind. unfold fails.
    change (progress 0 (["GA Ticketing System - JWT Token Generator"]
                          ++ [cat (repeat "=" 50)] ++ [EmptyString]) None w)
      with (after_header w).
    rewrite (loop_app hmac_sha256 pre _ [] tokens _ w1 Hpre).
    cbn [loop]. apply fails_bind. unfold loop_body. apply fails_bind. exact Hgen.
  - pose proof (keeps_files_generate_token hmac_sha256 u w1) as H2.
    pose proof (keeps_files_loop hmac_sha256 pre [] (after_header w)) as H1.
    rewrite Hgen in H2. rewrite Hpre in H1. cbn [snd] in H1, H2.
    rewrite H2, H1. reflexivity.
Qed.

(** C8. Every run of [main] leaves in test_tokens.json the JSON text of
    the role-to-token mapping of that run, in place of whatever the
    file held: the text is what [json.dumps] with an indent of 2 gives
    for the object whose members are requester, approver and admin,
    each with the token generated for that role in the run; it reads
    back as that object, and it is the same whatever files there were
    before the run. *)
Theorem main_overwrites_file (w : World) :
  exists requester approver admin w' text,
    main_with hmac_sha256 users w
    = (inr [("requester", requester); ("approver", approver); ("admin", admin)], w')
    /\ main hmac_sha256 w = (inr tt, w')
    /\ Json.dumps (Some 2%nat) None
         (VDict [("requester", VStr requester); ("approver", VStr approver);
                 ("admin", VStr admin)]) = inr text
    /\ files w' = <["test_tokens.json" := text]> (files w)
    /\ Json.loads text
       = Some (VDict [("requester", VStr requester); ("approver", VStr approver);
                      ("admin", VStr admin)])
    /\ claim requester "role" = Some (VStr "requester")
    /\ claim approver "role" = Some (VStr "approver")
    /\ claim admin "role" = Some (VStr "admin")
    /\ forall prior : gmap string string,
         files (snd (main_with hmac_sha256 users (with_files prior w)))
           !! "test_tokens.json" = Some text.
Proof.
  exists (nth_token hmac_sha256 requester_fields 0 w),
    (nth_token hmac_sha256 approver_fields 1 w),
    (nth_token hmac_sha256 admin_fields 2 w),
    (after_main hmac_sha256 w), (bundle_text (run_tokens hmac_sha256 w)).
  split; [apply main_with_users_runs|].
  split; [apply main_runs|].
  split; [apply (dumps_tokens (run_tokens hmac_sha256 w))|].
  split; [reflexivity|].
  split; [apply (loads_bundle (run_tokens hmac_sha256 w))|].
  unfold nth_token. rewrite !claim_token_of.
  split; [reflexivity|]. split; [reflexivity|]. split; [reflexivity|].
  intros prior.
  pose proof (main_with_users_runs hmac_sha256 (with_files prior w)) as H.
  unfold runs in H. rewrite H. cbn [snd]. rewrite file_after_main. reflexivity.
Qed.

(** C9. Every call of [generate_token] draws a UUID of its own, and the
    token carries its text as [jti]: two calls whose draws differ
    return tokens whose decoded [jti] differ. *)
Theorem generate_token_jti_unique (u1 u2 : gmap string string)
  (w1 w2 w1' w2' : World) (t1 t2 : string) :
  generate_token hmac_sha256 u1 w1 = (inr t1, w1') ->
  generate_token hmac_sha256 u2 w2 = (inr t2, w2') ->
  uuid4_int (urandom w1 (urandom_draws w1))
  <> uuid4_int (urandom w2 (urandom_draws w2)) ->
  urandom_draws w1' = S (urandom_draws w1)
  /\ exists j1 j2,
       claim t1 "jti" = Some (VStr j1) /\ claim t2 "jti" = Some (VStr j2)
       /\ j1 = uuid_str (uuid4_int (urandom w1 (urandom_draws w1)))
       /\ j2 = uuid_str (uuid4_int (urandom w2 (urandom_draws w2)))
       /\ j1 <> j2.
Proof.
  intros (f1 & _ & -> & ->)%generate_token_inv
         (f2 & _ & -> & ->)%generate_token_inv Hne.
  split; [reflexivity|].
  exists (uuid_str (jti_of w1)), (uuid_str (jti_of w2)).
  rewrite !claim_token_of.
  repeat (split; [reflexivity|]).
  intros H. apply uuid_str_inj in H. exact (Hne H).
Qed.

(** C10. In a run of [main], the three channels agree: the file maps
    each role to the token printed in the block of that role, and the
    three export lines carry, between double quotes, the tokens of
    requester, approver and admin. *)
Theorem main_channels_consistent (w : World) :
  exists requester approver admin w' text,
    main_with hmac_sha256 users w
    = (inr [("requester", requester); ("approver", approver); ("admin", admin)], w')
    /\ main hmac_sha256 w = (inr tt, w')
    /\ files w' !! "test_tokens.json" = Some text
    /\ Json.loads text
       = Some (VDict [("requester", VStr requester); ("approver", VStr approver);
                      ("admin", VStr admin)])
    /\ stdout w'
       = stdout w
         ++ ["GA Ticketing System - JWT Token Generator";
             "==================================================";
             EmptyString]
         ++ ["REQUESTER USER:";
             "  Name: John Requester";
             "  Email: john.requester@company.com";
             "  Role: requester";
             "  Token: " +:+ requester;
             EmptyString]
         ++ ["APPROVER USER:";
             "  Name: Jane Approver";
             "  Email: jane.approver@company.com";
             "  Role: approver";
             "  Token: " +:+ approver;
             EmptyString]
         ++ ["ADMIN USER:";
             "  Name: Admin User";
             "  Email: admin@company.com";
             "  Role: admin";
             "  Token: " +:+ admin;
             EmptyString]
         ++ ["Tokens saved to: test_tokens.json"; EmptyString; "Usage examples:";
             "export REQUESTER_TOKEN="
               +:+ String "034" (requester +:+ String "034" EmptyString);
             "export APPROVER_TOKEN="
               +:+ String "034" (approver +:+ String "034" EmptyString);
             "export ADMIN_TOKEN="
               +:+ String "034" (admin +:+ String "034" EmptyString)].
Proof.
  exists (nth_token hmac_sha256 requester_fields 0 w),
    (nth_token hmac_sha256 approver_fields 1 w),
    (nth_token hmac_sha256 admin_fields 2 w),
    (after_main hmac_sha256 w), (bundle_text (run_tokens hmac_sha256 w)).
  split; [apply main_with_users_runs|].
  split; [apply main_runs|].
  split; [apply file_after_main|].
  split; [apply loads_bundle|].
  reflexivity.
Qed.

End Claims.

(** * The claims on sample inputs *)

(** C1 on the admin profile. *)
Lemma generate_token_timestamps_witness :
  generate_token sample_hmac (profile_of "admin") sample_world
  = (inr (nth_token sample_hmac admin_fields 0 sample_world),
     after_token sample_world)
  /\ clock_reads (after_token sample_world) = S (clock_reads sample_world)
  /\ (exists f jti,
        Jwt.encode sample_hmac
          (VDict (payload_entries f (clock sample_world (clock_reads sample_world))
                    jti))
          JWT_SECRET ALGORITHM
        = inr (Str (nth_token sample_hmac admin_fields 0 sample_world)))
  /\ timestamps_consistent (clock sample_world (clock_reads sample_world))
       (nth_token sample_hmac admin_fields 0 sample_world).
Proof.
  split; [vm_compute; reflexivity|].
  apply (generate_token_timestamps sample_hmac (profile_of "admin") sample_world).
  vm_compute; reflexivity.
Defined.

(** C4 in a world without PyJWT. *)
Lemma script_without_pyjwt_witness :
  ("jwt" ∉ site_packages bare_world)
  /\ run_script (script sample_hmac) bare_world
     = (1%Z, add_stderr ["ModuleNotFoundError: No module named 'jwt'"] bare_world).
Proof.
  split; [decide_true|].
  apply (script_without_pyjwt sample_hmac bare_world). decide_true.
Defined.

(** C5 as stated fails on a profile without an email: the call raises. *)
Lemma generate_token_absent_field :
  broken_profile !! "email" = None
  /\ generate_token sample_hmac broken_profile sample_world
     = (inl (KeyError "email"), after_clock sample_world).
Proof. split; vm_compute; reflexivity. Qed.

(** C6 as stated fails: the same profile at the same time gives another
    token when another UUID is drawn. *)
Lemma generate_token_depends_on_uuid :
  clock sample_world (clock_reads sample_world)
  = clock second_draw_world (clock_reads second_draw_world)
  /\ fst (generate_token sample_hmac (profile_of "admin") sample_world)
     <> fst (generate_token sample_hmac (profile_of "admin") second_draw_world).
Proof.
  split; [reflexivity|]. intros H.
  apply (f_equal (fun r : exn + string =>
                    match r with
                    | inr t => claim t "jti"
                    | inl _ => None
                    end)) in H.
  vm_compute in H. discriminate H.
Qed.

(** C6, amended, on two worlds that differ in their console and files. *)
Lemma generate_token_deterministic_witness :
  clock sample_world (clock_reads sample_world)
  = clock busy_world (clock_reads busy_world)
  /\ uuid4_int (urandom sample_world (urandom_draws sample_world))
     = uuid4_int (urandom busy_world (urandom_draws busy_world))
  /\ fst (generate_token sample_hmac (profile_of "admin") sample_world)
     = fst (generate_token sample_hmac (profile_of "admin") busy_world)
  /\ untouched sample_world
       (snd (generate_token sample_hmac (profile_of "admin") sample_world))
  /\ untouched busy_world
       (snd (generate_token sample_hmac (profile_of "admin") busy_world)).
Proof.
  split; [reflexivity|]. split; [reflexivity|].
  apply (generate_token_deterministic sample_hmac (profile_of "admin")
           sample_world busy_world); reflexivity.
Defined.

(** C7 on a table whose second profile has no email: the run stops at
    the approver and writes no file. *)
Lemma main_aborts_before_write_witness :
  loop sample_hmac [("requester", profile_of "requester")] []
    (after_header sample_world)
  = (inr [("requester", nth_token sample_hmac requester_fields 0 sample_world)],
     after_requester)
  /\ generate_token sample_hmac broken_profile after_requester
     = (inl (KeyError "email"), after_clock after_requester)
  /\ main_with sample_hmac
       ([("requester", profile_of "requester")]
        ++ ("approver", broken_profile) :: [("admin", profile_of "admin")])
       sample_world
     = (inl (KeyError "email"), after_clock after_requester)
  /\ files (after_clock after_requester) = files sample_world.
Proof.
  split; [vm_compute; reflexivity|].
  split; [vm_compute; reflexivity|].
  apply (main_aborts_before_write sample_hmac
           [("requester", profile_of "requester")]
           [("admin", profile_of "admin")] "approver" broken_profile
           sample_world after_requester (after_clock after_requester)
           [("requester", nth_token sample_hmac requester_fields 0 sample_world)]
           (KeyError "email"));
    vm_compute; reflexivity.
Defined.

(** C9 on two successive calls. *)
Lemma generate_token_jti_unique_witness :
  generate_token sample_hmac (profile_of "admin") sample_world
  = (inr (nth_token sample_hmac admin_fields 0 sample_world),
     after_token sample_world)
  /\ generate_token sample_hmac (profile_of "admin") (after_token sample_world)
     = (inr (nth_token sample_hmac admin_fields 1 sample_world),
        after_token (after_token sample_world))
  /\ uuid4_int (urandom sample_world (urandom_draws sample_world))
     <> uuid4_int (urandom (after_token sample_world)
                     (urandom_draws (after_token sample_world)))
  /\ urandom_draws (after_token sample_world) = S (urandom_draws sample_world)
  /\ exists j1 j2,
       claim (nth_token sample_hmac admin_fields 0 sample_world) "jti"
       = Some (VStr j1)
       /\ claim (nth_token sample_hmac admin_fields 1 sample_world) "jti"
          = Some (VStr j2)
       /\ j1 = uuid_str (uuid4_int (urandom sample_world
                                      (urandom_draws sample_world)))
       /\ j2 = uuid_str (uuid4_int (urandom (after_token sample_world)
                                      (urandom_draws (after_token sample_world))))
       /\ j1 <> j2.
Proof.
  split; [vm_compute; reflexivity|].
  split; [vm_compute; reflexivity|].
  split; [vm_compute; discriminate|].
  apply (generate_token_jti_unique sample_hmac (profile_of "admin")
           (profile_of "admin") sample_world (after_token sample_world)
           (after_token sample_world) (after_token (after_token sample_world))
           (nth_token sample_hmac admin_fields 0 sample_world)
           (nth_token sample_hmac admin_fields 1 sample_world));
    [vm_compute; reflexivity | vm_compute; reflexivity | vm_compute; discriminate].
Defined.

(** * Further properties of the script *)

(** ** The text of a UUID *)

Lemma uuid4_int_testbit (r m : N) :
  N.testbit (uuid4_int r) m
  = (((N.testbit (r mod 2 ^ 128) m && negb (N.testbit (N.shiftl 0xc000 48) m))
      || N.testbit (N.shiftl 0x8000 48) m)
     && negb (N.testbit (N.shiftl 0xf000 64) m))
    || N.testbit (N.shiftl 4 76) m.
Proof.
  unfold uuid4_int. cbv zeta.
  now rewrite N.lor_spec, N.ldiff_spec, N.lor_spec, N.ldiff_spec.
Qed.

Lemma testbit_above (c m k : N) : c < 2 ^ k -> k <= m -> N.testbit c m = false.
Proof.
  intros Hc Hm. destruct (N.eq_dec c 0) as [-> | Hz]; [apply N.bits_0|].
  apply N.bits_above_log2. apply N.log2_lt_pow2; [lia|].
  apply N.lt_le_trans with (2 ^ k); [exact Hc|].
  apply N.pow_le_mono_r; lia.
Qed.

Lemma uuid4_int_lt (r : N) : uuid4_int r < 2 ^ 128.
Proof.
  assert (H : uuid4_int r mod 2 ^ 128 = uuid4_int r).
  { apply N.bits_inj. intros m.
    destruct (N.lt_ge_cases m 128) as [Hm|Hm].
    - now rewrite N.mod_pow2_bits_low.
    - rewrite N.mod_pow2_bits_high by exact Hm.
      rewrite uuid4_int_testbit.
      rewrite N.mod_pow2_bits_high by exact Hm.
      rewrite !(testbit_above _ m 128) by (try exact Hm; vm_compute; reflexivity).
      reflexivity. }
  rewrite <- H. apply N.mod_lt. discriminate.
Qed.

Lemma uuid4_int_version (r : N) : (uuid4_int r / 2 ^ 76) mod 16 = 4.
Proof.
  change 16 with (2 ^ 4). apply N.bits_inj. intros m.
  destruct (N.lt_ge_cases m 4) as [Hm|Hm].
  - rewrite N.mod_pow2_bits_low by exact Hm.
    rewrite N.div_pow2_bits, uuid4_int_testbit.
    assert (Hc : m = 0 \/ m = 1 \/ m = 2 \/ m = 3) by lia.
    destruct Hc as [-> | [-> | [-> | ->]]]; cbn [N.add Pos.add];
      rewrite andb_false_r; reflexivity.
  - rewrite N.mod_pow2_bits_high by exact Hm.
    symmetry. apply (testbit_above 4 m 4); [reflexivity | exact Hm].
Qed.

Lemma uuid4_int_variant (r : N) : (uuid4_int r / 2 ^ 62) mod 4 = 2.
Proof.
  change 4 with (2 ^ 2). apply N.bits_inj. intros m.
  destruct (N.lt_ge_cases m 2) as [Hm|Hm].
  - rewrite N.mod_pow2_bits_low by exact Hm.
    rewrite N.div_pow2_bits, uuid4_int_testbit.
    assert (Hc : m = 0 \/ m = 1) by lia.
    destruct Hc as [-> | ->]; cbn [N.add Pos.add].
    + change (N.testbit (N.shiftl 49152 48) 62) with true.
      rewrite andb_false_r. reflexivity.
    + change (N.testbit (N.shiftl 32768 48) 63) with true.
      rewrite orb_true_r. reflexivity.
  - rewrite N.mod_pow2_bits_high by exact Hm.
    symmetry. apply (testbit_above 2 m 2); [reflexivity | exact Hm].
Qed.

Lemma hex_len_le (n : N) (k : nat) : n < 16 ^ N.of_nat k -> (hex_len n <= k)%nat.
Proof.
  intros H. unfold hex_len.
  pose proof (N.size_le n) as Hs.
  assert (Hp : 2 ^ N.size n < 2 ^ (4 * N.of_nat k + 1)).
  { apply N.le_lt_trans with (N.succ_double n); [exact Hs|].
    rewrite N.pow_add_r, N.pow_mul_r. change (2 ^ 4) with 16. change (2 ^ 1) with 2.
    rewrite N.succ_double_spec. lia. }
  apply N.pow_lt_mono_r_iff in Hp; [|lia].
  assert ((N.size n + 3) / 4 <= N.of_nat k) by divlia. lia.
Qed.

Lemma is_lower_hex_digit (d : N) : is_lower_hex (hex_digit d) = true.
Proof.
  destruct (N.lt_ge_cases d 16) as [H|H].
  - destruct d as [|p]; [reflexivity|].
    do 4 (destruct p as [p|p|]; try reflexivity; try lia).
  - unfold hex_digit.
    replace (N.to_nat d) with (16 + (N.to_nat d - 16))%nat by lia.
    reflexivity.
Qed.

Theorem uuid_str_uuid4 (r : N) : is_uuid4_text (uuid_str (uuid4_int r)) = true.
Proof.
  pose proof (uuid4_int_lt r) as Hlt.
  pose proof (uuid4_int_version r) as Hver.
  pose proof (uuid4_int_variant r) as Hvar.
  generalize dependent (uuid4_int r). intros v Hlt Hver Hvar.
  unfold is_uuid4_text, uuid_str, format_0x.
  replace (Nat.max 32 (hex_len v)) with 32%nat
    by (pose proof (hex_len_le v 32 Hlt); lia).
  cbv [hex_fixed slice take drop Nat.sub String.append chr String.length Nat.eqb
       all_chars].
  rewrite !is_lower_hex_digit.
  match goal with
  | |- context [String "-" (String (hex_digit ?q) EmptyString)] =>
      replace q with 4
  end.
  2:{ rewrite !N.Div0.div_div. symmetry. exact Hver. }
  match goal with
  | |- context [existsb (String.eqb (String (hex_digit (?x mod 16)) EmptyString))] =>
      assert (Hq : x mod 16 = 8 \/ x mod 16 = 9 \/ x mod 16 = 10 \/ x mod 16 = 11);
      [|destruct Hq as [-> | [-> | [-> | ->]]]; reflexivity]
  end.
  rewrite !N.Div0.div_div.
  change (2 ^ 62) with (2 ^ 60 * 4) in Hvar.
  rewrite <- (N.Div0.div_div v (2 ^ 60) 4) in Hvar.
  match goal with
  | |- context [v / ?c] => change c with (2 ^ 60)
  end.
  revert Hvar. generalize (v / 2 ^ 60). intros x Hx. divlia.
Qed.

(** ** The characters of a token *)

Lemma all_chars_app (p : ascii -> bool) (a b : string) :
  all_chars p (a +:+ b) = all_chars p a && all_chars p b.
Proof.
  induction a as [|x r IH]; [reflexivity|].
  rewrite append_cons. cbn [all_chars]. now rewrite IH, andb_assoc.
Qed.

Lemma is_token_char_b64 (n : N) : is_token_char (b64_char n) = true.
Proof.
  destruct (N.lt_ge_cases n 64) as [H|H].
  - destruct n as [|p]; [reflexivity|].
    do 6 (destruct p as [p|p|]; try reflexivity; try lia).
  - unfold b64_char.
    replace (N.to_nat n) with (64 + (N.to_nat n - 64))%nat by lia.
    reflexivity.
Qed.

Lemma urlsafe_encode_token_chars (s : string) :
  all_chars is_token_char (urlsafe_encode s) = true.
Proof.
  induction s as [|a|a b|a b c r IH] using string_ind3.
  - reflexivity.
  - cbn [urlsafe_encode chr all_chars]. now rewrite !is_token_char_b64.
  - cbn [urlsafe_encode chr all_chars]. now rewrite !is_token_char_b64.
  - rewrite urlsafe_encode_3. cbv zeta. cbn [all_chars].
    now rewrite !is_token_char_b64, IH.
Qed.

Lemma escape_token_char (c : ascii) :
  is_token_char c = true -> escape_char c = chr c.
Proof.
  destruct c as [[] [] [] [] [] [] [] []]; intros H; try discriminate H; reflexivity.
Qed.

Lemma escape_token_chars (s : string) :
  all_chars is_token_char s = true -> escape s = s.
Proof.
  induction s as [|c r IH]; [reflexivity|].
  cbn [all_chars escape]. intros [Hc Hr]%andb_true_iff.
  rewrite (escape_token_char c Hc), IH by exact Hr. reflexivity.
Qed.

Section TokenText.
Variable hmac_sha256 : string -> string -> string.

Lemma token_of_chars (f : Fields) (now : Z) (jti : N) :
  all_chars is_token_char (token_of hmac_sha256 f now jti) = true.
Proof.
  unfold token_of, signing_input.
  rewrite !all_chars_app, !urlsafe_encode_token_chars. reflexivity.
Qed.

(** X5. Every token [generate_token] returns is made of ASCII letters,
    digits, hyphens, underscores and dots only (no padding sign, no
    quote, no blank), so that [json.dump] writes it between quotes
    without any escape. *)
Theorem generate_token_url_safe (u : gmap string string) (w w' : World)
  (token : string) :
  generate_token hmac_sha256 u w = (inr token, w') ->
  all_chars is_token_char token = true
  /\ Json.encode_str token = String dquote (token +:+ chr dquote).
Proof.
  intros (f & _ & -> & _)%generate_token_inv.
  pose proof (token_of_chars f (now_of w) (jti_of w)) as H.
  split; [exact H|].
  unfold encode_str. now rewrite escape_token_chars.
Qed.
End TokenText.

(** ** What a token holds *)

Section TokenContent.
Variable hmac_sha256 : string -> string -> string.

(** X1. The first segment of every token [generate_token] returns is
    the base64url text of a JSON object with two members: alg, which is
    HS256, and typ, which is JWT. *)
Theorem generate_token_header (u : gmap string string) (w w' : World)
  (token : string) :
  generate_token hmac_sha256 u w = (inr token, w') ->
  exists h p s text members,
    split "." token = [h; p; s]
    /\ urlsafe_decode h = Some text
    /\ Json.loads text = Some (VDict members)
    /\ length members = 2%nat
    /\ dict_get members "alg" = Some (VStr "HS256")
    /\ dict_get members "typ" = Some (VStr "JWT").
Proof.
  intros (f & _ & -> & _)%generate_token_inv.
  rewrite split_token. do 5 eexists.
  split; [reflexivity|].
  split; [vm_compute; reflexivity|].
  split; [vm_compute; reflexivity|].
  repeat split.
Qed.

(** X2. The third segment of every token [generate_token] returns is
    the base64url text of the HMAC, under the secret of the script, of
    the first two segments joined by a dot: the token verifies under
    that secret, and it verifies under another key exactly when that
    key gives the same digest of these two segments. *)
Theorem generate_token_signature (u : gmap string string) (w w' : World)
  (token key : string) :
  generate_token hmac_sha256 u w = (inr token, w') ->
  exists h p s,
    split "." token = [h; p; s]
    /\ urlsafe_decode s = Some (hmac_sha256 JWT_SECRET (h +:+ "." +:+ p))
    /\ signature_ok hmac_sha256 JWT_SECRET token = true
    /\ (signature_ok hmac_sha256 key token = true
        <-> hmac_sha256 key (h +:+ "." +:+ p)
            = hmac_sha256 JWT_SECRET (h +:+ "." +:+ p)).
Proof.
  intros (f & _ & -> & _)%generate_token_inv.
  unfold signature_ok. rewrite split_token. do 3 eexists.
  split; [reflexivity|].
  rewrite urlsafe_decode_encode. split; [reflexivity|].
  split; [apply String.eqb_refl|].
  rewrite String.eqb_eq. unfold signing_input. split; congruence.
Qed.

(** X3. The decoded payload of every token [generate_token] returns
    has exactly the thirteen claims the function assembles, in the
    order of the dictionary display; [iss] and [aud] are the constants
    of the script, [sub] repeats [user_id], and [role] is the role of
    the profile. *)
Theorem generate_token_claim_names (u : gmap string string) (w w' : World)
  (token : string) :
  generate_token hmac_sha256 u w = (inr token, w') ->
  exists entries,
    decode_payload token = Some (VDict entries)
    /\ dict_keys entries = claim_names
    /\ dict_get entries "iss" = Some (VStr JWT_ISSUER)
    /\ dict_get entries "aud" = Some (VList [VStr "ga-ticketing-client"])
    /\ dict_get entries "sub" = dict_get entries "user_id"
    /\ dict_get entries "role" = option_map VStr (u !! "role").
Proof.
  intros (f & Hf & -> & _)%generate_token_inv.
  rewrite decode_token. eexists. split; [reflexivity|].
  destruct (fields_of_Some u f Hf) as (_ & _ & _ & _ & -> & _).
  repeat split.
Qed.

Lemma claims_seconds (f : Fields) (t t' : Z) (jti : N) :
  numeric_date t = numeric_date t' -> claims f t jti = claims f t' jti.
Proof.
  intros H. unfold claims. now rewrite !numeric_date_next_day, H.
Qed.

(** X6. Two calls of [generate_token] that return give the same token
    exactly when the profiles agree on the six fields that are read,
    the times read fall in the same second and the UUIDs drawn are the
    same: other keys of a profile and the microseconds of the clock do
    not reach the token, and different profiles never share one. *)
Theorem generate_token_same_token (u1 u2 : gmap string string)
  (w1 w2 w1' w2' : World) (t1 t2 : string) :
  generate_token hmac_sha256 u1 w1 = (inr t1, w1') ->
  generate_token hmac_sha256 u2 w2 = (inr t2, w2') ->
  t1 = t2
  <-> fields_of u1 = fields_of u2
      /\ numeric_date (clock w1 (clock_reads w1))
         = numeric_date (clock w2 (clock_reads w2))
      /\ uuid4_int (urandom w1 (urandom_draws w1))
         = uuid4_int (urandom w2 (urandom_draws w2)).
Proof.
  intros (f1 & Hf1 & -> & _)%generate_token_inv
         (f2 & Hf2 & -> & _)%generate_token_inv.
  rewrite Hf1, Hf2. fold (now_of w1) (now_of w2) (jti_of w1) (jti_of w2).
  split.
  - intros H. apply (f_equal decode_payload) in H.
    rewrite !decode_token in H. unfold claims in H.
    injection H as H1 H2 H3 H4 H5 H6 H7 _ _ H8.
    apply uuid_str_inj in H7.
    destruct f1, f2; cbn in *. subst. auto.
  - intros ([= ->] & Ht & Hj). unfold token_of, signing_input, claims_text.
    now rewrite (claims_seconds f2 _ _ _ Ht), Hj.
Qed.

(** X7. On a profile that lacks one of the six fields, read at a time
    to which 24 hours can be added, [generate_token] raises [KeyError]
    for the first field the profile lacks, and it does so before it
    draws a UUID: the clock was read once, the random source is as it
    was, and so are the console, the error stream, the files and the
    modules. *)
Theorem generate_token_failure (u : gmap string string) (w : World) (k : string) :
  first_absent u = Some k ->
  is_datetime (clock w (clock_reads w) + timedelta_hours 24) = true ->
  exists w',
    generate_token hmac_sha256 u w = (inl (KeyError k), w')
    /\ u !! k = None
    /\ clock_reads w' = S (clock_reads w)
    /\ urandom_draws w' = urandom_draws w
    /\ untouched w w'.
Proof.
  intros Hk _. destruct (fields_of u) as [f|] eqn:Hf.
  - destruct (fields_of_Some u f Hf) as (H1 & H2 & H3 & H4 & H5 & H6).
    unfold first_absent, field_names in Hk. cbn [find] in Hk.
    rewrite H1, H2, H3, H4, H5, H6 in Hk. discriminate Hk.
  - destruct (generate_token_raises hmac_sha256 u w Hf) as (k' & Hk' & Hfail).
    assert (k' = k) as -> by congruence.
    exists (after_clock w). split; [exact Hfail|].
    split; [apply (first_absent_lookup u k Hk)|].
    repeat split.
Qed.

End TokenContent.

Section TokenId.
Variable hmac_sha256 : string -> string -> string.

(** X4. The [jti] of every token [generate_token] returns is the
    canonical text of a version-4 UUID: 36 characters, lower-case
    hexadecimal digits in groups of 8, 4, 4, 4 and 12 separated by
    hyphens, with version digit 4 and variant digit 8, 9, a or b. *)
Theorem generate_token_jti_uuid4 (u : gmap string string) (w w' : World)
  (token : string) :
  generate_token hmac_sha256 u w = (inr token, w') ->
  exists j, claim token "jti" = Some (VStr j) /\ is_uuid4_text j = true.
Proof.
  intros (f & _ & -> & _)%generate_token_inv.
  exists (uuid_str (jti_of w)). rewrite claim_token_of.
  split; [reflexivity | apply uuid_str_uuid4].
Qed.
End TokenId.

(** ** The loop and the body of [main] *)

Lemma upper_is_upper_of (s : string) : is_upper_of s (upper s).
Proof.
  split.
  - induction s as [|c r IH]; [reflexivity|]. cbn [upper String.length].
    now rewrite IH.
  - induction s as [|c r IH]; intros i x Hget; [discriminate Hget|].
    destruct i as [|i]; cbn [upper String.get] in *.
    + injection Hget as <-. reflexivity.
    + now apply IH.
Qed.

Lemma progress_start (w : World) : progress 0 [] None w = w.
Proof. destruct w. unfold progress. cbn. now rewrite app_nil_r. Qed.

Lemma dict_set_fresh {V : Type} (d : list (string * V)) (k : string) (v : V) :
  ~ In k (dict_keys d) -> dict_set d k v = d ++ [(k, v)].
Proof.
  induction d as [|[k' v'] rest IH]; [reflexivity|].
  cbn [dict_keys map fst In dict_set app]. intros H.
  destruct (String.eqb_spec k' k) as [->|Hne]; [tauto|].
  rewrite IH; [reflexivity | tauto].
Qed.

Lemma dict_get_lookup {V : Type} (d : list (string * V)) (i : nat) (k : string)
  (v : V) :
  List.NoDup (dict_keys d) -> d !! i = Some (k, v) -> dict_get d k = Some v.
Proof.
  revert i. induction d as [|[k' v'] rest IH]; intros i Hnd Hi; [discriminate Hi|].
  apply List.NoDup_cons_iff in Hnd as [Hk' Hnd]. cbn [dict_get].
  destruct i as [|i]; cbn in Hi.
  - injection Hi as -> ->. now rewrite String.eqb_refl.
  - destruct (String.eqb_spec k' k) as [->|Hne]; [|now apply (IH i)].
    exfalso. apply Hk'.
    apply list_elem_of_lookup_2 in Hi. apply list_elem_of_In in Hi.
    now apply (in_map fst) in Hi.
Qed.

Section Loop.
Variable hmac_sha256 : string -> string -> string.

Lemma loop_progress (table : list (string * gmap string string)) (w : World) :
  Forall (fun item => fields_of (snd item) <> None) table ->
  forall (tokens0 : list (string * string)) (k : nat) (lines0 : list string),
    List.NoDup (dict_keys tokens0 ++ dict_keys table) ->
    exists added lines,
      loop hmac_sha256 table tokens0 (progress k lines0 None w)
      = (inr (tokens0 ++ added),
         progress (k + length table) (lines0 ++ lines) None w)
      /\ dict_keys added = dict_keys table
      /\ length lines = (6 * length table)%nat
      /\ forall i role u, table !! i = Some (role, u) ->
           exists f, fields_of u = Some f
             /\ added !! i = Some (role, nth_token hmac_sha256 f (k + i) w)
             /\ firstn 6 (skipn (6 * i) lines)
                = block_lines role f (nth_token hmac_sha256 f (k + i) w).
Proof.
  induction 1 as [|[role u] rest Hu _ IH]; intros tokens0 k lines0 Hnd.
  - exists [], []. cbn [loop length]. rewrite !app_nil_r, Nat.add_0_r.
    repeat split. intros i role u Hi. discriminate Hi.
  - cbn [snd] in Hu. destruct (fields_of u) as [f|] eqn:Hf; [clear Hu|congruence].
    set (token := nth_token hmac_sha256 f k w).
    cbn [dict_keys map fst] in Hnd.
    assert (Hfresh : ~ In role (dict_keys tokens0)).
    { apply List.NoDup_remove_2 in Hnd. intros Hin. apply Hnd, in_or_app. now left. }
    destruct (IH (tokens0 ++ [(role, token)]) (S k)
                (lines0 ++ block_lines role f token)) as (added & lines & Hrun & Hk & Hl & Hi).
    { unfold dict_keys. rewrite map_app, <- app_assoc. exact Hnd. }
    exists ((role, token) :: added), (block_lines role f token ++ lines).
    split.
    { cbn [loop]. unfold bind.
      rewrite (loop_body_progress hmac_sha256 tokens0 role u f k lines0 w Hf).
      fold token. rewrite (dict_set_fresh tokens0 role token Hfresh), Hrun.
      rewrite <- !app_assoc. cbn [app length]. now rewrite Nat.add_succ_r. }
    split; [cbn [dict_keys map fst]; f_equal; exact Hk|].
    split; [rewrite length_app, Hl; cbn [block_lines length]; lia|].
    intros i r' u' Hlook. destruct i as [|i].
    + cbn in Hlook. injection Hlook as <- <-. exists f.
      rewrite Nat.add_0_r. fold token.
      split; [exact Hf|]. split; reflexivity.
    + cbn in Hlook. destruct (Hi i r' u' Hlook) as (f' & Hf' & Hadd & Hblock).
      exists f'. rewrite Nat.add_succ_r. split; [exact Hf'|].
      split; [exact Hadd|].
      replace (6 * S i)%nat with (length (block_lines role f token) + 6 * i)%nat
        by (cbn [block_lines length]; lia).
      rewrite skipn_app, skipn_all2 by lia.
      replace (length (block_lines role f token) + 6 * i
               - length (block_lines role f token))%nat with (6 * i)%nat by lia.
      exact Hblock.
Qed.

(** X9. The loop of [main], on any table of users with distinct role
    names in ASCII and profiles that have the six fields: it returns a mapping
    with the roles of the table in the order of the table, reads the
    clock and draws a UUID once per user, prints six lines per user and
    touches neither the files nor the error stream; the user at
    position [i] gets the token of the [i]-th reading and the [i]-th
    draw, stored under its role and printed in the [i]-th block, after
    the role in upper case and the name, the email and the role of the
    profile. *)
Theorem loop_tokens_in_order (table : list (string * gmap string string))
  (w : World) :
  NoDup (dict_keys table) ->
  Forall (fun item => all_chars is_ascii (fst item) = true) table ->
  Forall (fun item => fields_of (snd item) <> None) table ->
  exists tokens lines,
    loop hmac_sha256 table [] w
    = (inr tokens, progress (length table) lines None w)
    /\ dict_keys tokens = dict_keys table
    /\ length lines = (6 * length table)%nat
    /\ forall i role u, table !! i = Some (role, u) ->
         exists f head,
           fields_of u = Some f
           /\ dict_get tokens role = Some (nth_token hmac_sha256 f i w)
           /\ is_upper_of role head
           /\ firstn 6 (skipn (6 * i) lines)
              = [head +:+ " USER:";
                 "  Name: " +:+ f_name f;
                 "  Email: " +:+ f_email f;
                 "  Role: " +:+ f_role f;
                 "  Token: " +:+ nth_token hmac_sha256 f i w;
                 EmptyString].
Proof.
  intros Hnd%NoDup_ListNoDup _ Hall.
  destruct (loop_progress table w Hall [] 0%nat [] Hnd)
    as (tokens & lines & Hrun & Hk & Hl & Hi).
  exists tokens, lines. rewrite progress_start in Hrun.
  split; [exact Hrun|]. split; [exact Hk|]. split; [exact Hl|].
  intros i role u Hlook. destruct (Hi i role u Hlook) as (f & Hf & Hadd & Hblock).
  exists f, (upper role). split; [exact Hf|].
  split; [apply (dict_get_lookup tokens i); [now rewrite Hk | exact Hadd]|].
  split; [apply upper_is_upper_of | exact Hblock].
Qed.

End Loop.

Lemma runs_json_dump_file (tokens : list (string * string)) (path : string)
  (w : World) :
  runs (json_dump_file (tokens_value tokens) path (Some 2%nat)) w tt
    (with_files (<[path := bundle_text tokens]> (files w)) w).
Proof.
  unfold json_dump_file. rewrite dumps_tokens.
  eapply runs_bind; [apply runs_ret | reflexivity].
Qed.

Lemma fails_dict_getitem (d : list (string * string)) (k : string) (w : World) :
  dict_get d k = None -> fails (dict_getitem d k) w (KeyError k) w.
Proof. unfold fails, dict_getitem. now intros ->. Qed.

Lemma runs_dict_getitem (d : list (string * string)) (k v : string) (w : World) :
  dict_get d k = Some v -> runs (dict_getitem d k) w v w.
Proof. unfold runs, dict_getitem. now intros ->. Qed.

Section MainRun.
Variable hmac_sha256 : string -> string -> string.

(** X10. The export lines name three roles: when the mapping the loop
    returns lacks one of them, the body of [main] raises [KeyError] for
    the first it lacks, in the order requester, approver, admin, and it
    does so after the file was written: test_tokens.json holds the
    text [json.dumps] with an indent of 2 gives for the object that has
    one member per entry of the mapping, the role with its token; the
    text reads back as that object, and the console says the tokens
    were saved. *)
Theorem main_with_unlisted_role (table : list (string * gmap string string))
  (w w1 : World) (tokens : list (string * string)) (name : string) :
  loop hmac_sha256 table [] (after_header w) = (inr tokens, w1) ->
  first_unlisted tokens = Some name ->
  exists w2 text,
    main_with hmac_sha256 table w = (inl (KeyError name), w2)
    /\ files w2 = <["test_tokens.json" := text]> (files w)
    /\ Json.dumps (Some 2%nat) None
         (VDict (map (fun kv : string * string => (fst kv, VStr (snd kv))) tokens))
       = inr text
    /\ Json.loads text
       = Some (VDict (map (fun kv : string * string => (fst kv, VStr (snd kv)))
                        tokens))
    /\ In "Tokens saved to: test_tokens.json" (stdout w2).
Proof.
  intros Hloop Hname.
  assert (Hfiles : files w1 = files w).
  { pose proof (keeps_files_loop hmac_sha256 table [] (after_header w)) as H.
    rewrite Hloop in H. exact H. }
  assert (Hhead : forall (e : exn) (w2 : World),
            fails (fun w0 =>
                     bind (json_dump_file (tokens_value tokens) "test_tokens.json"
                             (Some 2%nat)) (fun _ =>
                     bind (print "Tokens saved to: test_tokens.json") (fun _ =>
                     bind (print EmptyString) (fun _ =>
                     bind (print "Usage examples:") (fun _ =>
                     bind (dict_getitem tokens "requester") (fun requester =>
                     bind (print (export_line "REQUESTER_TOKEN" requester)) (fun _ =>
                     bind (dict_getitem tokens "approver") (fun approver =>
                     bind (print (export_line "APPROVER_TOKEN" approver)) (fun _ =>
                     bind (dict_getitem tokens "admin") (fun admin =>
                     bind (print (export_line "ADMIN_TOKEN" admin)) (fun _ =>
                     ret tokens)))))))))) w0) w1 e w2 ->
            main_with hmac_sha256 table w = (inl e, w2)).
  { intros e w2 Hrest. unfold main_with.
    eapply fails_bind_after; [apply print_first|].
    eapply fails_bind_after; [apply print_progress|].
    eapply fails_bind_after; [apply print_progress|].
    eapply fails_bind_after; [exact Hloop|]. exact Hrest. }
  unfold first_unlisted, export_roles in Hname. cbn [find] in Hname.
  destruct (dict_get tokens "requester") as [requester|] eqn:E1.
  2:{ injection Hname as <-. eexists. exists (bundle_text tokens). split.
      - apply Hhead.
        eapply fails_bind_after; [apply runs_json_dump_file|].
        eapply fails_bind_after; [apply runs_print|].
        eapply fails_bind_after; [apply runs_print|].
        eapply fails_bind_after; [apply runs_print|].
        apply fails_bind, fails_dict_getitem, E1.
      - cbn [files add_stdout with_files stdout]. rewrite Hfiles.
        split; [reflexivity|]. split; [apply dumps_tokens|].
        split; [apply loads_bundle|].
        rewrite !in_app_iff. cbn [In]. tauto. }
  destruct (dict_get tokens "approver") as [approver|] eqn:E2.
  2:{ injection Hname as <-. eexists. exists (bundle_text tokens). split.
      - apply Hhead.
        eapply fails_bind_after; [apply runs_json_dump_file|].
        eapply fails_bind_after; [apply runs_print|].
        eapply fails_bind_after; [apply runs_print|].
        eapply fails_bind_after; [apply runs_print|].
        eapply fails_bind_after; [apply runs_dict_getitem, E1|].
        eapply fails_bind_after; [apply runs_print|].
        apply fails_bind, fails_dict_getitem, E2.
      - cbn [files add_stdout with_files stdout]. rewrite Hfiles.
        split; [reflexivity|]. split; [apply dumps_tokens|].
        split; [apply loads_bundle|].
        rewrite !in_app_iff. cbn [In]. tauto. }
  destruct (dict_get tokens "admin") as [admin|] eqn:E3; [discriminate Hname|].
  injection Hname as <-. eexists. exists (bundle_text tokens). split.
  - apply Hhead.
    eapply fails_bind_after; [apply runs_json_dump_file|].
    eapply fails_bind_after; [apply runs_print|].
    eapply fails_bind_after; [apply runs_print|].
    eapply fails_bind_after; [apply runs_print|].
    eapply fails_bind_after; [apply runs_dict_getitem, E1|].
    eapply fails_bind_after; [apply runs_print|].
    eapply fails_bind_after; [apply runs_dict_getitem, E2|].
    eapply fails_bind_after; [apply runs_print|].
    apply fails_bind, fails_dict_getitem, E3.
  - cbn [files add_stdout with_files stdout]. rewrite Hfiles.
    split; [reflexivity|]. split; [apply dumps_tokens|].
        split; [apply loads_bundle|].
    rewrite !in_app_iff. cbn [In]. tauto.
Qed.

(** X8. One iteration of the loop of [main], for a role named in
    ASCII, prints the block of its user whole or not at all: when
    [generate_token] returns, the token is stored under the role and
    six lines are printed, the role in upper case followed by USER and
    a colon, the name, the email, the role and the token of the user,
    and an empty line; the look-ups of the name, the email and the role
    cannot fail.  When [generate_token] raises, the iteration raises
    the same exception and nothing is printed. *)
Theorem loop_body_block (tokens : list (string * string)) (role : string)
  (u : gmap string string) (w : World) :
  all_chars is_ascii role = true ->
  match loop_body hmac_sha256 tokens (role, u) w with
  | (inr tokens', w') =>
      exists f token head,
        fields_of u = Some f
        /\ generate_token hmac_sha256 u w = (inr token, after_token w)
        /\ tokens' = dict_set tokens role token
        /\ is_upper_of role head
        /\ stdout w'
           = stdout w
             ++ [head +:+ " USER:";
                 "  Name: " +:+ f_name f;
                 "  Email: " +:+ f_email f;
                 "  Role: " +:+ f_role f;
                 "  Token: " +:+ token;
                 EmptyString]
  | (inl e, w') =>
      generate_token hmac_sha256 u w = (inl e, w') /\ stdout w' = stdout w
  end.
Proof.
  intros _. destruct (fields_of u) as [f|] eqn:Hf.
  - pose proof (loop_body_runs hmac_sha256 tokens role u f w Hf) as H.
    cbv zeta in H. unfold runs in H. rewrite H.
    exists f, (token_of hmac_sha256 f (now_of w) (jti_of w)), (upper role).
    split; [reflexivity|].
    split; [apply (generate_token_runs hmac_sha256 u f w Hf)|].
    split; [reflexivity|].
    split; [apply upper_is_upper_of | reflexivity].
  - destruct (generate_token_raises hmac_sha256 u w Hf) as (k & _ & Hfail).
    unfold loop_body.
    rewrite (fails_bind _ _ _ _ _ Hfail). split; [exact Hfail | reflexivity].
Qed.

(** X11. A run of [main] reads the clock three times and draws three
    UUIDs, prints 27 lines, writes nothing on the error stream, leaves
    the installed modules alone, and changes no file other than
    test_tokens.json. *)
Theorem main_footprint (w : World) :
  exists w',
    main hmac_sha256 w = (inr tt, w')
    /\ clock_reads w' = (3 + clock_reads w)%nat
    /\ urandom_draws w' = (3 + urandom_draws w)%nat
    /\ length (stdout w') = (length (stdout w) + 27)%nat
    /\ stderr w' = stderr w
    /\ site_packages w' = site_packages w
    /\ forall path, path <> "test_tokens.json" -> files w' !! path = files w !! path.
Proof.
  exists (after_main hmac_sha256 w). split; [apply main_runs|].
  unfold after_main, progress. cbn [clock_reads urandom_draws stdout stderr
                                     site_packages files].
  split; [reflexivity|]. split; [reflexivity|].
  split; [now rewrite length_app|].
  split; [reflexivity|]. split; [reflexivity|].
  intros path Hpath. now apply lookup_insert_ne.
Qed.

(** X12. The three tokens of a run of [main] are pairwise different,
    whatever the clock reads and whatever the random source draws. *)
Theorem main_tokens_distinct (w : World) :
  exists requester approver admin w',
    main_with hmac_sha256 users w
    = (inr [("requester", requester); ("approver", approver); ("admin", admin)], w')
    /\ requester <> approver /\ approver <> admin /\ requester <> admin.
Proof.
  exists (nth_token hmac_sha256 requester_fields 0 w),
    (nth_token hmac_sha256 approver_fields 1 w),
    (nth_token hmac_sha256 admin_fields 2 w), (after_main hmac_sha256 w).
  split; [apply main_with_users_runs|].
  unfold nth_token.
  repeat split; intros H; apply (f_equal (fun t => claim t "sub")) in H;
    rewrite !claim_token_of in H; discriminate H.
Qed.

(** X13. Dumping a mapping from roles to tokens with an indent of 2, as
    [main] does, leaves at the path a text that [json.loads] reads back
    as that mapping, for any keys and any token texts; the other files
    and the console are unchanged. *)
Theorem json_dump_file_roundtrip (tokens : list (string * string))
  (path : string) (w : World) :
  exists text w',
    json_dump_file (tokens_value tokens) path (Some 2%nat) w = (inr tt, w')
    /\ files w' !! path = Some text
    /\ Json.loads text = Some (tokens_value tokens)
    /\ (forall other, other <> path -> files w' !! other = files w !! other)
    /\ stdout w' = stdout w.
Proof.
  exists (bundle_text tokens), (with_files (<[path := bundle_text tokens]> (files w)) w).
  split; [apply runs_json_dump_file|].
  cbn [with_files files stdout].
  split; [apply lookup_insert_eq|].
  split; [apply loads_bundle|].
  split; [|reflexivity].
  intros other Hne. now apply lookup_insert_ne.
Qed.

End MainRun.

(** ** The script *)

Section ScriptRun.
Variable hmac_sha256 : string -> string -> string.

(** X14. With PyJWT installed, running the script is running [main]:
    the imports and the guarded block leave no trace, so the status
    and the final state are those of [main] run alone; and a status of
    0 is only reached with PyJWT installed. *)
Theorem script_runs_main (w : World) :
  (fst (run_script (script hmac_sha256) w) = 0%Z -> "jwt" ∈ site_packages w)
  /\ ("jwt" ∈ site_packages w ->
      run_script (script hmac_sha256) w = run_script (main hmac_sha256) w).
Proof.
  split.
  - intros H. destruct (decide ("jwt" ∈ site_packages w)) as [Hin|Hout];
      [exact Hin|].
    exfalso. revert H. unfold run_script, script, bind.
    rewrite (import_absent w Hout). discriminate.
  - intros Hin. rewrite (script_with_pyjwt hmac_sha256 w Hin).
    unfold run_script. now rewrite main_runs.
Qed.

(** X15. In no environment does the script print the two lines of
    install guidance of its guarded block: with PyJWT the guard passes,
    and without it the import at the top of the module raises first. *)
Theorem script_never_prints_guidance (w : World) :
  exists lines,
    stdout (snd (run_script (script hmac_sha256) w)) = stdout w ++ lines
    /\ Forall (fun line => ~ In line install_lines) lines.
Proof.
  destruct (decide ("jwt" ∈ site_packages w)) as [Hin|Hout].
  - exists (run_lines hmac_sha256 w).
    rewrite (script_with_pyjwt hmac_sha256 w Hin). split; [reflexivity|].
    unfold run_lines, header_lines, block_lines, footer_lines, export_line, install_lines.
    generalize (nth_token hmac_sha256 requester_fields 0 w),
      (nth_token hmac_sha256 approver_fields 1 w),
      (nth_token hmac_sha256 admin_fields 2 w).
    intros a b c. cbn [app].
    repeat constructor; intros [H|[H|[]]]; discriminate H.
  - exists []. split; [|constructor].
    unfold run_script, script, bind. rewrite (import_absent w Hout).
    cbn [snd stdout]. now rewrite app_nil_r.
Qed.

End ScriptRun.

(** ** Further properties on sample inputs *)

(** X1 on the admin profile. *)
Lemma generate_token_header_witness :
  generate_token sample_hmac (profile_of "admin") sample_world
  = (inr (nth_token sample_hmac admin_fields 0 sample_world),
     after_token sample_world)
  /\ exists h p s text members,
       split "." (nth_token sample_hmac admin_fields 0 sample_world) = [h; p; s]
       /\ urlsafe_decode h = Some text
       /\ Json.loads text = Some (VDict members)
       /\ length members = 2%nat
       /\ dict_get members "alg" = Some (VStr "HS256")
       /\ dict_get members "typ" = Some (VStr "JWT").
Proof.
  split; [vm_compute; reflexivity|].
  apply (generate_token_header sample_hmac (profile_of "admin") sample_world
           (after_token sample_world)).
  vm_compute; reflexivity.
Defined.

(** X2 on the admin profile, with another key. *)
Lemma generate_token_signature_witness :
  generate_token sample_hmac (profile_of "admin") sample_world
  = (inr (nth_token sample_hmac admin_fields 0 sample_world),
     after_token sample_world)
  /\ exists h p s,
       split "." (nth_token sample_hmac admin_fields 0 sample_world) = [h; p; s]
       /\ urlsafe_decode s = Some (sample_hmac JWT_SECRET (h +:+ "." +:+ p))
       /\ signature_ok sample_hmac JWT_SECRET
            (nth_token sample_hmac admin_fields 0 sample_world) = true
       /\ (signature_ok sample_hmac "another-key"
             (nth_token sample_hmac admin_fields 0 sample_world) = true
           <-> sample_hmac "another-key" (h +:+ "." +:+ p)
               = sample_hmac JWT_SECRET (h +:+ "." +:+ p)).
Proof.
  split; [vm_compute; reflexivity|].
  apply (generate_token_signature sample_hmac (profile_of "admin") sample_world
           (after_token sample_world)).
  vm_compute; reflexivity.
Defined.

(** X3 on the admin profile. *)
Lemma generate_token_claim_names_witness :
  generate_token sample_hmac (profile_of "admin") sample_world
  = (inr (nth_token sample_hmac admin_fields 0 sample_world),
     after_token sample_world)
  /\ exists entries,
       decode_payload (nth_token sample_hmac admin_fields 0 sample_world)
       = Some (VDict entries)
       /\ dict_keys entries = claim_names
       /\ dict_get entries "iss" = Some (VStr JWT_ISSUER)
       /\ dict_get entries "aud" = Some (VList [VStr "ga-ticketing-client"])
       /\ dict_get entries "sub" = dict_get entries "user_id"
       /\ dict_get entries "role" = option_map VStr (profile_of "admin" !! "role").
Proof.
  split; [vm_compute; reflexivity|].
  apply (generate_token_claim_names sample_hmac (profile_of "admin") sample_world
           (after_token sample_world)).
  vm_compute; reflexivity.
Defined.

(** X4 on the admin profile. *)
Lemma generate_token_jti_uuid4_witness :
  generate_token sample_hmac (profile_of "admin") sample_world
  = (inr (nth_token sample_hmac admin_fields 0 sample_world),
     after_token sample_world)
  /\ exists j,
       claim (nth_token sample_hmac admin_fields 0 sample_world) "jti"
       = Some (VStr j)
       /\ is_uuid4_text j = true.
Proof.
  split; [vm_compute; reflexivity|].
  apply (generate_token_jti_uuid4 sample_hmac (profile_of "admin") sample_world
           (after_token sample_world)).
  vm_compute; reflexivity.
Defined.

(** X5 on the admin profile. *)
Lemma generate_token_url_safe_witness :
  generate_token sample_hmac (profile_of "admin") sample_world
  = (inr (nth_token sample_hmac admin_fields 0 sample_world),
     after_token sample_world)
  /\ all_chars is_token_char (nth_token sample_hmac admin_fields 0 sample_world)
     = true
  /\ Json.encode_str (nth_token sample_hmac admin_fields 0 sample_world)
     = String dquote
         (nth_token sample_hmac admin_fields 0 sample_world +:+ chr dquote).
Proof.
  split; [vm_compute; reflexivity|].
  apply (generate_token_url_safe sample_hmac (profile_of "admin") sample_world
           (after_token sample_world)).
  vm_compute; reflexivity.
Defined.

(** X6 on two calls within the same second. *)
Lemma generate_token_same_token_witness :
  generate_token sample_hmac (profile_of "admin") sample_world
  = (inr (nth_token sample_hmac admin_fields 0 sample_world),
     after_token sample_world)
  /\ generate_token sample_hmac (profile_of "admin") same_second_world
     = (inr (nth_token sample_hmac admin_fields 0 same_second_world),
        after_token same_second_world)
  /\ (nth_token sample_hmac admin_fields 0 sample_world
      = nth_token sample_hmac admin_fields 0 same_second_world
      <-> fields_of (profile_of "admin") = fields_of (profile_of "admin")
          /\ numeric_date (clock sample_world (clock_reads sample_world))
             = numeric_date (clock same_second_world (clock_reads same_second_world))
          /\ uuid4_int (urandom sample_world (urandom_draws sample_world))
             = uuid4_int (urandom same_second_world
                            (urandom_draws same_second_world))).
Proof.
  split; [vm_compute; reflexivity|].
  split; [vm_compute; reflexivity|].
  apply (generate_token_same_token sample_hmac (profile_of "admin")
           (profile_of "admin") sample_world same_second_world
           (after_token sample_world) (after_token same_second_world));
    vm_compute; reflexivity.
Defined.

(** X7 on a profile without an email. *)
Lemma generate_token_failure_witness :
  first_absent broken_profile = Some "email"
  /\ is_datetime (clock sample_world (clock_reads sample_world)
                  + timedelta_hours 24) = true
  /\ exists w',
       generate_token sample_hmac broken_profile sample_world
       = (inl (KeyError "email"), w')
       /\ broken_profile !! "email" = None
       /\ clock_reads w' = S (clock_reads sample_world)
       /\ urandom_draws w' = urandom_draws sample_world
       /\ untouched sample_world w'.
Proof.
  split; [vm_compute; reflexivity|].
  split; [vm_compute; reflexivity|].
  apply (generate_token_failure sample_hmac broken_profile sample_world "email");
    vm_compute; reflexivity.
Defined.

(** X8 on the admin of the table. *)
Lemma loop_body_block_witness :
  all_chars is_ascii "admin" = true
  /\ match loop_body sample_hmac [] ("admin", profile_of "admin") sample_world with
     | (inr tokens', w') =>
         exists f token head,
           fields_of (profile_of "admin") = Some f
           /\ generate_token sample_hmac (profile_of "admin") sample_world
              = (inr token, after_token sample_world)
           /\ tokens' = dict_set [] "admin" token
           /\ is_upper_of "admin" head
           /\ stdout w'
              = stdout sample_world
                ++ [head +:+ " USER:";
                    "  Name: " +:+ f_name f;
                    "  Email: " +:+ f_email f;
                    "  Role: " +:+ f_role f;
                    "  Token: " +:+ token;
                    EmptyString]
     | (inl e, w') =>
         generate_token sample_hmac (profile_of "admin") sample_world = (inl e, w')
         /\ stdout w' = stdout sample_world
     end.
Proof.
  split; [reflexivity|].
  apply (loop_body_block sample_hmac [] "admin" (profile_of "admin") sample_world).
  reflexivity.
Defined.

(** X9 on a table of two users. *)
Lemma loop_tokens_in_order_witness :
  NoDup (dict_keys two_roles)
  /\ Forall (fun item : string * gmap string string =>
               all_chars is_ascii (fst item) = true) two_roles
  /\ Forall (fun item : string * gmap string string => fields_of (snd item) <> None)
       two_roles
  /\ exists tokens lines,
       loop sample_hmac two_roles [] sample_world
       = (inr tokens, progress (length two_roles) lines None sample_world)
       /\ dict_keys tokens = dict_keys two_roles
       /\ length lines = (6 * length two_roles)%nat
       /\ forall i role u, two_roles !! i = Some (role, u) ->
            exists f head,
              fields_of u = Some f
              /\ dict_get tokens role = Some (nth_token sample_hmac f i sample_world)
              /\ is_upper_of role head
              /\ firstn 6 (skipn (6 * i) lines)
                 = [head +:+ " USER:";
                    "  Name: " +:+ f_name f;
                    "  Email: " +:+ f_email f;
                    "  Role: " +:+ f_role f;
                    "  Token: " +:+ nth_token sample_hmac f i sample_world;
                    EmptyString].
Proof.
  split; [decide_true|].
  split; [repeat constructor|].
  split; [repeat constructor; vm_compute; discriminate|].
  apply (loop_tokens_in_order sample_hmac two_roles sample_world);
    [decide_true | repeat constructor
    | repeat constructor; vm_compute; discriminate].
Defined.

(** X10 on a table with the requester only. *)
Lemma main_with_unlisted_role_witness :
  loop sample_hmac [("requester", profile_of "requester")] []
    (after_header sample_world)
  = (inr [("requester", nth_token sample_hmac requester_fields 0 sample_world)],
     after_requester)
  /\ first_unlisted
       [("requester", nth_token sample_hmac requester_fields 0 sample_world)]
     = Some "approver"
  /\ exists w2 text,
       main_with sample_hmac [("requester", profile_of "requester")] sample_world
       = (inl (KeyError "approver"), w2)
       /\ files w2 = <["test_tokens.json" := text]> (files sample_world)
       /\ Json.dumps (Some 2%nat) None
            (VDict (map (fun kv : string * string => (fst kv, VStr (snd kv)))
                      [("requester",
                        nth_token sample_hmac requester_fields 0 sample_world)]))
          = inr text
       /\ Json.loads text
          = Some (VDict (map (fun kv : string * string => (fst kv, VStr (snd kv)))
                           [("requester",
                             nth_token sample_hmac requester_fields 0 sample_world)]))
       /\ In "Tokens saved to: test_tokens.json" (stdout w2).
Proof.
  split; [vm_compute; reflexivity|].
  split; [vm_compute; reflexivity|].
  apply (main_with_unlisted_role sample_hmac [("requester", profile_of "requester")]
           sample_world after_requester
           [("requester", nth_token sample_hmac requester_fields 0 sample_world)]
           "approver");
    vm_compute; reflexivity.
Defined.
